(** * Verification of [schema/audiovisual.py]

    The module declares pydantic (v2) models that sit between the OMDb
    provider and the rest of the catalogue: [AudiovisualPost] (the outbound
    query), [Audiovisual] and [OMDbRating] (the decoded provider response)
    and [AudiovisualView] (the public projection).

    The embedding follows the way pydantic executes such a class.  Every
    field owns a validator (its "core schema"), built from the declared
    annotation and wrapped by the [field_validator] hooks of the class; the
    class configuration decides under which input keys a field is looked
    up; validating a mapping runs every field and either returns the
    instance or the collected line errors.

    Conventions of the model.
    - A Python [str] is a [string]; an [ascii] stands for the code point of
      the same number, so the model covers text over code points below 256.
    - A Python [float] is a primitive binary64 [float].
    - Python objects are the values of [pyval]; a raw provider payload is a
      [VDict], as [json.loads] produces it.
    - [VObject cls attrs] is an instance of the class named [cls] with the
      attributes [attrs].  What Python derives from the class of an object
      is recorded among the attributes: ["__bases__"] lists the names of
      the classes the class inherits from, and ["__float__"] and
      ["__index__"] hold the number that the method of that name returns,
      for a class that defines it. *)

From Stdlib Require Import ZArith List String Ascii Bool Lia Floats.
Import ListNotations.
Local Open Scope string_scope.
Local Open Scope Z_scope.
#[local] Set Warnings "-inexact-float".

(** ** Python values *)

#[local] Set Warnings "-register-all".

Inductive pyval : Type :=
| VNone
| VBool (b : bool)
| VInt (z : Z)
| VFloat (f : float)
| VStr (s : string)
| VList (items : list pyval)
| VDict (entries : list (string * pyval))
| VObject (cls : string) (attrs : list (string * pyval)).

(** [isinstance(v, str)]. *)
Definition is_str (v : pyval) : bool :=
  match v with VStr _ => true | _ => false end.

(** Python truthiness, as used by [if v] / [v and ...]. *)
Definition truthy (v : pyval) : bool :=
  match v with
  | VNone => false
  | VBool b => b
  | VInt z => negb (z =? 0)
  | VFloat f => negb (PrimFloat.eqb f 0%float)
  | VStr s => negb (String.eqb s "")
  | VList l => match l with [] => false | _ => true end
  | VDict d => match d with [] => false | _ => true end
  | VObject _ _ => true
  end.

(** Mapping lookup: [d.get(k)], with [None] for a key that is not there. *)
Fixpoint dict_get (k : string) (d : list (string * pyval)) : option pyval :=
  match d with
  | [] => None
  | (k', v) :: rest => if String.eqb k k' then Some v else dict_get k rest
  end.

(** The names of the class of an object and of the classes it inherits
    from. *)
Definition class_names (v : pyval) : list string :=
  match v with
  | VObject c attrs =>
      c :: match dict_get "__bases__" attrs with
           | Some (VList l) =>
               flat_map (fun b => match b with VStr n => [n] | _ => [] end) l
           | _ => []
           end
  | _ => []
  end.

(** [isinstance(v, cls)] for a class of the project: the class of [v] is
    [cls] or inherits from it. *)
Definition isinstance (v : pyval) (cls : string) : bool :=
  existsb (String.eqb cls) (class_names v).

(** Attribute access [v.name]. *)
Definition getattr (v : pyval) (name : string) : option pyval :=
  match v with VObject _ attrs => dict_get name attrs | _ => None end.

(** ** Validation results

    A pydantic [ValidationError] carries one line per failure: where it
    happened and which kind of failure it was.  [value_error] is a
    [ValueError] raised inside a hook, which pydantic reports as a line;
    [python_exception] stands for any other exception of a hook, which
    pydantic lets through to the caller. *)

Inductive loc_item : Type :=
| Key (k : string)
| Index (i : nat).

Inductive error_kind : Type :=
| missing
| string_type
| int_type
| int_parsing
| int_from_float
| int_parsing_size
| finite_number
| float_type
| float_parsing
| bool_type
| bool_parsing
| list_type
| model_type
| value_error
| python_exception.

Definition line_error : Type := (list loc_item * error_kind)%type.

Inductive result (A : Type) : Type :=
| Ok (a : A)
| ValidationError (errors : list line_error).

Arguments Ok {A} a.
Arguments ValidationError {A} errors.

Definition is_ok {A} (r : result A) : bool :=
  match r with Ok _ => true | ValidationError _ => false end.

Definition fail {A} (k : error_kind) : result A := ValidationError [([], k)].

Definition errors_of {A} (r : result A) : list line_error :=
  match r with Ok _ => [] | ValidationError e => e end.

(** Errors raised below a location are reported under it. *)
Definition at_loc (l : loc_item) (errs : list line_error) : list line_error :=
  map (fun e => (l :: fst e, snd e)) errs.

(** A validator is what pydantic-core compiles a schema to. *)
Definition validator : Type := pyval -> result pyval.

(** ** Characters and the two regular-expression calls of the module *)

Definition code (c : ascii) : Z := Z.of_nat (nat_of_ascii c).

Definition is_upper (c : ascii) : bool := (65 <=? code c) && (code c <=? 90).
Definition is_lower (c : ascii) : bool := (97 <=? code c) && (code c <=? 122).
Definition is_digit (c : ascii) : bool := (48 <=? code c) && (code c <=? 57).
Definition is_alpha (c : ascii) : bool := is_upper c || is_lower c.
Definition is_alnum (c : ascii) : bool := is_alpha c || is_digit c.

Definition upper (c : ascii) : ascii :=
  if is_lower c then ascii_of_nat (nat_of_ascii c - 32) else c.
Definition lower (c : ascii) : ascii :=
  if is_upper c then ascii_of_nat (nat_of_ascii c + 32) else c.

Fixpoint str_map (f : ascii -> ascii) (s : string) : string :=
  match s with
  | EmptyString => EmptyString
  | String c s' => String (f c) (str_map f s')
  end.

Definition str_lower (s : string) : string := str_map lower s.

(** The class [\s] of the [regex] module on text: the code points with the
    Unicode White_Space property (tab, line feed, vertical tab, form feed,
    carriage return, space, NEL and the no-break space, below 256). *)
Definition is_whitespace (c : ascii) : bool :=
  let n := code c in
  ((9 <=? n) && (n <=? 13)) || (n =? 32) || (n =? 133) || (n =? 160).

(** [re.search(lit, s)] for a pattern without metacharacters: does [lit]
    occur somewhere in [s]? *)
Fixpoint starts_with (lit s : string) : bool :=
  match lit, s with
  | EmptyString, _ => true
  | String a lit', String b s' => Ascii.eqb a b && starts_with lit' s'
  | String _ _, EmptyString => false
  end.

Fixpoint re_search (lit s : string) : bool :=
  starts_with lit s ||
  match s with
  | EmptyString => false
  | String _ s' => re_search lit s'
  end.

(** [re.sub(p, repl, s)] for a pattern [p] that matches exactly one
    character of a class: every matching character is replaced, the others
    are copied. *)
Fixpoint re_sub (p : ascii -> bool) (repl s : string) : string :=
  match s with
  | EmptyString => EmptyString
  | String c s' =>
      if p c then repl ++ re_sub p repl s' else String c (re_sub p repl s')
  end.

Definition is_comma (c : ascii) : bool := Ascii.eqb c ","%char.

(** ** Numbers from text

    [float(s)] of Python and the text-to-float conversion of pydantic-core
    both return the binary64 value nearest to a decimal literal: an
    optional sign, then [inf], [infinity] or [nan] in any letter case, or
    digits with an optional fraction and an optional exponent, with a digit
    somewhere before the exponent.  They strip the same whitespace around
    the literal and differ in the digit separators they allow. *)

Fixpoint lstrip (l : list ascii) : list ascii :=
  match l with
  | c :: l' => if is_whitespace c then lstrip l' else l
  | [] => []
  end.

Definition strip (s : string) : list ascii :=
  rev (lstrip (rev (lstrip (list_ascii_of_string s)))).

(** Leading digits of [l]: their value on top of [acc], how many there
    were, and what follows them. *)
Fixpoint span_digits (l : list ascii) (acc : Z) (n : Z)
  : Z * Z * list ascii :=
  match l with
  | c :: l' =>
      if is_digit c then span_digits l' (10 * acc + (code c - 48)) (n + 1)
      else (acc, n, l)
  | [] => (acc, n, [])
  end.

Definition split_sign (l : list ascii) : bool * list ascii :=
  match l with
  | c :: l' =>
      if Ascii.eqb c "-"%char then (true, l')
      else if Ascii.eqb c "+"%char then (false, l')
      else (false, l)
  | [] => (false, [])
  end.

(** The binary64 nearest to [m * 10^e10] (ties to even), negated when
    [neg]: the quotient is computed with more than 60 significant bits and a
    sticky bit, then rounded once. *)
Definition float_of_decimal (neg : bool) (m e10 : Z) : float :=
  if m =? 0 then (if neg then neg_zero else zero)
  else
    let num := if 0 <=? e10 then m * 10 ^ e10 else m in
    let den := if 0 <=? e10 then 1 else 10 ^ (- e10) in
    let k := Z.max 0 (64 + Z.log2 den - Z.log2 num) in
    let q := (num * 2 ^ k) / den in
    let sticky := if (num * 2 ^ k) mod den =? 0 then 0 else 1 in
    let mant := 2 * q + sticky in
    SF2Prim (SpecFloat.binary_normalize prec emax
               (if neg then - mant else mant) (- k - 1) false).

(** The binary64 nearest to an integer; infinite when the integer is out
    of the range of the format. *)
Definition float_of_int (z : Z) : float :=
  SF2Prim (SpecFloat.binary_normalize prec emax z 0 false).

Definition parse_exponent (l : list ascii) : option Z :=
  match l with
  | [] => Some 0
  | c :: l' =>
      if Ascii.eqb c "e"%char || Ascii.eqb c "E"%char then
        let '(neg, l'') := split_sign l' in
        match span_digits l'' 0 0 with
        | (x, n, []) => if 0 <? n then Some (if neg then - x else x) else None
        | _ => None
        end
      else None
  end.

(** A decimal literal, without whitespace and without separators. *)
Definition float_literal (l : list ascii) : option float :=
  let '(neg, body) := split_sign l in
  let word := str_lower (string_of_list_ascii body) in
  if String.eqb word "inf" || String.eqb word "infinity" then
    Some (if neg then neg_infinity else infinity)
  else if String.eqb word "nan" then Some nan
  else
    let '(ip, n1, after_int) := span_digits body 0 0 in
    let '(m, n2, after_frac) :=
      match after_int with
      | c :: l' =>
          if Ascii.eqb c "."%char then span_digits l' ip 0 else (ip, 0, after_int)
      | [] => (ip, 0, [])
      end in
    if 0 <? n1 + n2 then
      match parse_exponent after_frac with
      | Some x => Some (float_of_decimal neg m (x - n2))
      | None => None
      end
    else None.

Definition is_underscore (c : ascii) : bool := Ascii.eqb c "_"%char.

Definition without_underscores (l : list ascii) : list ascii :=
  filter (fun c => negb (is_underscore c)) l.

(** Python's rule for digit separators: every underscore stands between
    two digits. *)
Fixpoint underscores_between_digits (prev : option ascii) (l : list ascii)
  : bool :=
  match l with
  | [] => true
  | c :: l' =>
      (if is_underscore c
       then match prev with Some x => is_digit x | None => false end
            && match l' with y :: _ => is_digit y | [] => false end
       else true)
      && underscores_between_digits (Some c) l'
  end.

(** [float(s)] of Python on a string; [None] stands for [ValueError]. *)
Definition py_float (s : string) : option float :=
  let l := strip s in
  if existsb is_underscore l then
    if underscores_between_digits None l
    then float_literal (without_underscores l)
    else None
  else float_literal l.

Fixpoint doubled_underscore (l : list ascii) : bool :=
  match l with
  | c :: l' =>
      (is_underscore c
       && match l' with y :: _ => is_underscore y | [] => false end)
      || doubled_underscore l'
  | [] => false
  end.

(** pydantic-core's rule for digit separators: the underscores of a text
    are dropped unless the text starts or ends with one, holds two in a
    row, or holds none. *)
Definition strip_underscores (l : list ascii) : option (list ascii) :=
  if match l with c :: _ => is_underscore c | [] => false end
     || match rev l with c :: _ => is_underscore c | [] => false end
     || negb (existsb is_underscore l)
     || doubled_underscore l
  then None
  else Some (without_underscores l).

(** Text to [float] as pydantic-core reads it in lax mode: the stripped
    text as a literal, or else the text itself, not stripped, with its
    underscores dropped. *)
Definition str_as_float (s : string) : option float :=
  match float_literal (strip s) with
  | Some f => Some f
  | None =>
      match strip_underscores (list_ascii_of_string s) with
      | Some l => float_literal l
      | None => None
      end
  end.

(** A sign and digits, nothing else. *)
Definition int_literal (l : list ascii) : option Z :=
  let '(neg, body) := split_sign l in
  match span_digits body 0 0 with
  | (ip, n, []) => if 0 <? n then Some (if neg then - ip else ip) else None
  | _ => None
  end.

(** [l] up to its first dot, when the dot is followed by zeros only and by
    at least one. *)
Fixpoint before_decimal_zeros (l : list ascii) : option (list ascii) :=
  match l with
  | [] => None
  | c :: l' =>
      if Ascii.eqb c "."%char then
        match l' with
        | [] => None
        | _ => if forallb (Ascii.eqb "0"%char) l' then Some [] else None
        end
      else
        match before_decimal_zeros l' with
        | Some pre => Some (c :: pre)
        | None => None
        end
  end.

(** Text to [int] as pydantic-core reads it in lax mode.  The stripped
    text is read as a sign and digits; failing that, a fraction made of
    zeros is cut off ([75.0] is 75, [75.] is not a number), digit
    separators are dropped ([1_000] is 1000), and what is left is read as a
    sign and digits. *)
Definition str_as_int (s : string) : option Z :=
  let l := strip s in
  match int_literal l with
  | Some z => Some z
  | None =>
      let whole :=
        if existsb (Ascii.eqb "."%char) l then before_decimal_zeros l
        else Some l in
      match whole with
      | Some w =>
          match strip_underscores w with
          | Some w' => int_literal w'
          | None => int_literal w
          end
      | None => None
      end
  end.

(** A float that holds a whole number, as an [int]: the number has to be
    finite, whole, and strictly between [-2^63] and [2^63]. *)
Definition float_as_int (f : float) : result pyval :=
  let bounded (z : Z) : result pyval :=
    if (- 2 ^ 63 <? z) && (z <? 2 ^ 63) then Ok (VInt z)
    else fail int_parsing_size in
  match Prim2SF f with
  | S754_zero _ => Ok (VInt 0)
  | S754_finite s m e =>
      let mz := if s then Z.neg m else Z.pos m in
      if 0 <=? e then bounded (mz * 2 ^ e)
      else if Z.pos m mod 2 ^ (- e) =? 0 then bounded (mz / 2 ^ (- e))
      else fail int_from_float
  | S754_infinity _ | S754_nan => fail finite_number
  end.

(** What Python gives for [float(v)] on a number or on an object whose
    class converts to one, as pydantic-core extracts a double: [None] when
    it raises ([TypeError], or [OverflowError] for an integer out of
    range). *)
Definition finite_float_of_int (z : Z) : option float :=
  let f := float_of_int z in
  if is_infinity f then None else Some f.

Definition as_double (v : pyval) : option float :=
  match v with
  | VFloat f => Some f
  | VInt z => finite_float_of_int z
  | VBool b => Some (if b then one else zero)
  | VObject _ attrs =>
      match dict_get "__float__" attrs with
      | Some (VFloat f) => Some f
      | _ =>
          match dict_get "__index__" attrs with
          | Some (VInt z) => finite_float_of_int z
          | _ => None
          end
      end
  | _ => None
  end.

(** The same for a 64-bit integer: booleans, integers in range, and
    objects whose class defines [__index__]. *)
Definition in_i64 (z : Z) : bool := (- 2 ^ 63 <=? z) && (z <? 2 ^ 63).

Definition as_i64 (v : pyval) : option Z :=
  match v with
  | VInt z => if in_i64 z then Some z else None
  | VBool b => Some (if b then 1 else 0)
  | VObject _ attrs =>
      match dict_get "__index__" attrs with
      | Some (VInt z) => if in_i64 z then Some z else None
      | _ => None
      end
  | _ => None
  end.

(** The words pydantic-core takes for a boolean, in any letter case. *)
Definition str_as_bool (s : string) : option bool :=
  let w := str_lower s in
  if existsb (String.eqb w) ["0"; "off"; "f"; "false"; "n"; "no"] then Some false
  else if existsb (String.eqb w) ["1"; "on"; "t"; "true"; "y"; "yes"] then Some true
  else None.

(** ** Validators of the annotated types

    Each scalar type has a strict validator (the value already has the
    type) and a lax one (pydantic's default mode, which also converts). *)

Inductive scalar : Type := str_schema | int_schema | float_schema | bool_schema.

Definition validate_strict (t : scalar) : validator :=
  fun v =>
    match t, v with
    | str_schema, VStr _ => Ok v
    | str_schema, _ => fail string_type
    | int_schema, VInt _ => Ok v
    | int_schema, _ => fail int_type
    | float_schema, VFloat _ => Ok v
    | float_schema, _ => fail float_type
    | bool_schema, VBool _ => Ok v
    | bool_schema, _ => fail bool_type
    end.

Definition int_as_bool (z : Z) : result pyval :=
  if z =? 0 then Ok (VBool false)
  else if z =? 1 then Ok (VBool true)
  else fail bool_parsing.

Definition validate_lax (t : scalar) : validator :=
  fun v =>
    match t with
    | str_schema =>
        match v with
        | VStr _ => Ok v
        | _ => fail string_type
        end
    | int_schema =>
        match v with
        | VInt _ => Ok v
        | VBool b => Ok (VInt (if b then 1 else 0))
        | VFloat f => float_as_int f
        | VStr s =>
            match str_as_int s with
            | Some z => Ok (VInt z)
            | None => fail int_parsing
            end
        | _ =>
            match as_double v with
            | Some f => float_as_int f
            | None => fail int_type
            end
        end
    | float_schema =>
        match v with
        | VFloat _ => Ok v
        | VStr s =>
            match str_as_float s with
            | Some f => Ok (VFloat f)
            | None => fail float_parsing
            end
        | _ =>
            match as_double v with
            | Some f => Ok (VFloat f)
            | None => fail float_type
            end
        end
    | bool_schema =>
        match v with
        | VBool _ => Ok v
        | VStr s =>
            match str_as_bool s with
            | Some b => Ok (VBool b)
            | None => fail bool_parsing
            end
        | _ =>
            match as_i64 v with
            | Some z => int_as_bool z
            | None =>
                match as_double v with
                | Some f =>
                    match float_as_int f with
                    | Ok (VInt z) => int_as_bool z
                    | _ => fail bool_type
                    end
                | None => fail bool_type
                end
            end
        end
    end.

(** [X | None]: [None] is accepted as it is, anything else goes to [X]. *)
Definition nullable (inner : validator) : validator :=
  fun v => match v with VNone => Ok VNone | _ => inner v end.

(** The first validator of [vs] that accepts [v]; the errors of all of
    them when none does. *)
Fixpoint first_ok (vs : list validator) (v : pyval) : result pyval :=
  match vs with
  | [] => ValidationError []
  | f :: rest =>
      match f v with
      | Ok w => Ok w
      | ValidationError e =>
          match first_ok rest v with
          | Ok w => Ok w
          | ValidationError e' => ValidationError (e ++ e')
          end
      end
  end.

(** The tag under which the errors of a member of a union are reported. *)
Definition tag_of (t : scalar) : string :=
  match t with
  | str_schema => "str"
  | int_schema => "int"
  | float_schema => "float"
  | bool_schema => "bool"
  end.

Definition tagged (mode : scalar -> validator) (t : scalar) : validator :=
  fun v =>
    match mode t v with
    | Ok w => Ok w
    | ValidationError e => ValidationError (at_loc (Key (tag_of t)) e)
    end.

(** A union of scalar types in pydantic's smart mode: a member of which
    the value already is an instance wins; otherwise the members are tried
    in lax mode, in the order of the annotation, and when none accepts the
    value the errors of all of them are reported, each under the tag of
    its member. *)
Definition union_schema (choices : list scalar) : validator :=
  fun v =>
    match first_ok (map (tagged validate_strict) choices) v with
    | Ok w => Ok w
    | ValidationError _ => first_ok (map (tagged validate_lax) choices) v
    end.

(** [list[X]]: every item is validated, errors are reported under the
    index of the item. *)
Fixpoint validate_items (item : validator) (i : nat) (l : list pyval)
  : result (list pyval) :=
  match l with
  | [] => Ok []
  | x :: rest =>
      match item x, validate_items item (S i) rest with
      | Ok y, Ok ys => Ok (y :: ys)
      | r, rs => ValidationError (at_loc (Index i) (errors_of r) ++ errors_of rs)
      end
  end.

Definition list_schema (item : validator) : validator :=
  fun v =>
    match v with
    | VList l =>
        match validate_items item 0 l with
        | Ok ys => Ok (VList ys)
        | ValidationError e => ValidationError e
        end
    | _ => fail list_type
    end.

(** [@field_validator(..., mode="before")]: the hook sees the raw value
    and hands its result to the validator it wraps; an exception raised by
    the hook is the error of the field. *)
Definition function_before (hook inner : validator) : validator :=
  fun v =>
    match hook v with
    | Ok w => inner w
    | ValidationError e => ValidationError e
    end.

(** [@field_validator(...)] in the default mode: the hook sees the value
    the wrapped validator produced. *)
Definition function_after (hook inner : validator) : validator :=
  fun v =>
    match inner v with
    | Ok w => hook w
    | ValidationError e => ValidationError e
    end.

(** ** Models: fields, configuration, validation, serialization *)

(** A field as the class body declares it.  [default = None] is a field
    without a default, which pydantic requires in the input;
    [validation_alias] is the alias given in [Field(...)], if any. *)
Record FieldInfo : Type := {
  name : string;
  schema : validator;
  default : option pyval;
  validation_alias : option (list string)
}.

(** The part of [ConfigDict] that governs what is accepted as input and
    under which keys.  A class without an alias generator has the identity
    for [alias_generator]. *)
Record ConfigDict : Type := {
  populate_by_name : bool;
  from_attributes : bool;
  alias_generator : string -> list string
}.

(** The keys under which a field is looked up, in order.  An alias given
    on the field has priority over the generator of the class; the field's
    own name is tried last, and only under [populate_by_name]. *)
Definition lookup_keys (cfg : ConfigDict) (f : FieldInfo) : list string :=
  match validation_alias f with
  | Some keys => keys
  | None => alias_generator cfg (name f)
  end ++ (if populate_by_name cfg then [name f] else []).

(** First key of [keys] present in the mapping, with its value. *)
Fixpoint resolve (keys : list string) (d : list (string * pyval))
  : option (string * pyval) :=
  match keys with
  | [] => None
  | k :: rest =>
      match dict_get k d with
      | Some v => Some (k, v)
      | None => resolve rest d
      end
  end.

Definition validate_field (cfg : ConfigDict) (f : FieldInfo)
    (d : list (string * pyval)) : result pyval :=
  match resolve (lookup_keys cfg f) d with
  | Some (k, raw) =>
      match schema f raw with
      | Ok v => Ok v
      | ValidationError e => ValidationError (at_loc (Key k) e)
      end
  | None =>
      match default f with
      | Some dv => Ok dv
      | None => ValidationError [([Key (hd (name f) (lookup_keys cfg f))], missing)]
      end
  end.

(** All fields in declaration order; one failing field fails the model,
    and the errors of all fields are reported together. *)
Fixpoint validate_fields (cfg : ConfigDict) (fs : list FieldInfo)
    (d : list (string * pyval)) : result (list (string * pyval)) :=
  match fs with
  | [] => Ok []
  | f :: rest =>
      match validate_field cfg f d, validate_fields cfg rest d with
      | Ok v, Ok vs => Ok ((name f, v) :: vs)
      | r, rs => ValidationError (errors_of r ++ errors_of rs)
      end
  end.

(** Validation against a model class: a mapping is validated field by
    field (keys that belong to no field are ignored); an instance of the
    class is taken as it is; any other object is read through its
    attributes when the class sets [from_attributes], and refused
    otherwise. *)
Definition model_validate (cls : string) (cfg : ConfigDict)
    (fs : list FieldInfo) : validator :=
  fun v =>
    let build (source : list (string * pyval)) :=
      match validate_fields cfg fs source with
      | Ok attrs => Ok (VObject cls attrs)
      | ValidationError e => ValidationError e
      end in
    match v with
    | VDict d => build d
    | VObject _ attrs =>
        if isinstance v cls then Ok v
        else if from_attributes cfg then build attrs
        else fail model_type
    | _ => fail model_type
    end.

(** [model_dump(by_alias=True)]: an instance becomes a mapping keyed by the
    serialization aliases, nested instances and lists included.  Every
    model of the module sets [serialization_alias=to_snake], so the
    generator is a parameter shared by all of them. *)
Fixpoint model_dump (ser_alias : string -> string) (v : pyval) : pyval :=
  match v with
  | VList l => VList (map (model_dump ser_alias) l)
  | VObject _ attrs =>
      VDict ((fix dump_attrs (a : list (string * pyval)) :=
                match a with
                | [] => []
                | (k, x) :: rest =>
                    (ser_alias k, model_dump ser_alias x) :: dump_attrs rest
                end) attrs)
  | VDict d =>
      VDict ((fix dump_items (a : list (string * pyval)) :=
                match a with
                | [] => []
                | (k, x) :: rest => (k, model_dump ser_alias x) :: dump_items rest
                end) d)
  | _ => v
  end.

(** ** The alias generators of [pydantic.alias_generators] *)

(** [str.title()]: a letter that follows a letter is lowered, any other
    letter is raised. *)
Fixpoint title_from (prev_cased : bool) (s : string) : string :=
  match s with
  | EmptyString => EmptyString
  | String c s' =>
      if is_alpha c
      then String (if prev_cased then lower c else upper c) (title_from true s')
      else String c (title_from false s')
  end.

Definition next_is (p : ascii -> bool) (s : string) : bool :=
  match s with String c _ => p c | EmptyString => false end.

(** [re.sub('([0-9A-Za-z])_(?=[0-9A-Z])', group 1, s)]: an underscore
    between an alphanumeric character and a digit or capital is dropped. *)
Fixpoint drop_joints (prev : option ascii) (s : string) : string :=
  match s with
  | EmptyString => EmptyString
  | String c s' =>
      if Ascii.eqb c "_"%char
         && match prev with Some x => is_alnum x | None => false end
         && next_is (fun y => is_digit y || is_upper y) s'
      then drop_joints (Some c) s'
      else String c (drop_joints (Some c) s')
  end.

Definition to_pascal (snake : string) : string :=
  drop_joints None (title_from false snake).

(** [re.sub('(^_*[A-Z])', lowered, s)]: the first capital, if only
    underscores precede it, is lowered. *)
Fixpoint lower_first (s : string) : string :=
  match s with
  | EmptyString => EmptyString
  | String c s' =>
      if Ascii.eqb c "_"%char then String c (lower_first s')
      else String (lower c) s'
  end.

Fixpoint str_forall (p : ascii -> bool) (s : string) : bool :=
  match s with
  | EmptyString => true
  | String c s' => p c && str_forall p s'
  end.

Fixpoint digit_then_lower (s : string) : bool :=
  match s with
  | EmptyString => false
  | String c s' => (is_digit c && next_is is_lower s') || digit_then_lower s'
  end.

Definition to_camel (snake : string) : string :=
  if next_is is_lower snake && str_forall is_alnum snake
     && negb (digit_then_lower snake)
  then snake
  else lower_first (to_pascal snake).

(** An underscore is put between two neighbours [x], [y] whenever
    [p x y rest] holds, [rest] being what follows [y]. *)
Fixpoint insert_sep (p : ascii -> ascii -> string -> bool) (s : string)
  : string :=
  match s with
  | EmptyString => EmptyString
  | String x s' =>
      String x
        (match s' with
         | String y rest =>
             if p x y rest then String "_"%char (insert_sep p s')
             else insert_sep p s'
         | EmptyString => EmptyString
         end)
  end.

Definition to_snake (camel : string) : string :=
  let s1 := insert_sep (fun x y rest =>
              is_upper x && is_upper y && next_is is_lower rest) camel in
  let s2 := insert_sep (fun x y _ => is_lower x && is_upper y) s1 in
  let s3 := insert_sep (fun x y _ => is_digit x && is_upper y) s2 in
  let s4 := insert_sep (fun x y _ => is_lower x && is_digit y) s3 in
  str_lower (str_map (fun c => if Ascii.eqb c "-"%char then "_"%char else c) s4).

(** ** The classes of [schema/audiovisual.py] *)

Definition required (n : string) (s : validator) : FieldInfo :=
  {| name := n; schema := s; default := None; validation_alias := None |}.

Definition optional (n : string) (s : validator) (d : pyval) : FieldInfo :=
  {| name := n; schema := s; default := Some d; validation_alias := None |}.

Definition with_alias (f : FieldInfo) (alias : string) : FieldInfo :=
  {| name := name f; schema := schema f; default := default f;
     validation_alias := Some [alias] |}.

Definition str_or_none : validator := nullable (validate_lax str_schema).
Definition int_or_none : validator := nullable (validate_lax int_schema).
Definition float_or_none : validator := nullable (validate_lax float_schema).
Definition str_or_int_or_none : validator :=
  nullable (union_schema [str_schema; int_schema]).

(** *** [AudiovisualPost] *)

Module AudiovisualPost.

Definition model_config : ConfigDict :=
  {| populate_by_name := false;
     from_attributes := false;
     alias_generator := fun f => [to_camel f] |}.

(** [return re.sub(r"\s", "+", v) if v else v].  The hook runs after the
    [str | None] validator, so [v] is a string or [None]; on any other
    truthy value [re.sub] would raise. *)
Definition _replace_whitespaces_for_request : validator :=
  fun v =>
    if truthy v then
      match v with
      | VStr s => Ok (VStr (re_sub is_whitespace "+" s))
      | _ => fail python_exception
      end
    else Ok v.

Definition model_fields : list FieldInfo :=
  [ optional "imdb_id" str_or_int_or_none VNone;
    optional "title"
      (function_after _replace_whitespaces_for_request str_or_none) VNone;
    optional "year" int_or_none VNone ].

Definition validate : validator :=
  model_validate "AudiovisualPost" model_config model_fields.

End AudiovisualPost.

(** *** [OMDbRating] *)

Module OMDbRating.

Definition model_config : ConfigDict :=
  {| populate_by_name := false;
     from_attributes := false;
     alias_generator := fun f => [to_pascal f] |}.

Definition model_fields : list FieldInfo :=
  [ required "source" (validate_lax str_schema);
    required "value" (validate_lax str_schema) ].

Definition validate : validator :=
  model_validate "OMDbRating" model_config model_fields.

End OMDbRating.

(** *** [Audiovisual] *)

Module Audiovisual.

Definition model_config : ConfigDict :=
  {| populate_by_name := true;
     from_attributes := true;
     alias_generator := fun f => [to_camel f; to_pascal f] |}.

(** [if v and isinstance(v, str) and re.search(r",", v):
       return float(re.sub(",", ".", v))
    return v] *)
Definition _change_commma_to_dot : validator :=
  fun v =>
    match v with
    | VStr s =>
        if truthy v && re_search "," s then
          match py_float (re_sub is_comma "." s) with
          | Some f => Ok (VFloat f)
          | None => fail value_error
          end
        else Ok v
    | _ => Ok v
    end.

(** [if isinstance(v, str) and re.search(r"N/A", v): return None
    return v] *)
Definition _empty_field : validator :=
  fun v =>
    match v with
    | VStr s => if re_search "N/A" s then Ok VNone else Ok v
    | _ => Ok v
    end.

(** The hooks of one field wrap its validator in the order of the class
    body, so the hook defined last, [_empty_field] (registered for
    ["*"]), is the outermost and sees the raw value first. *)
Definition hooked (inner : validator) : validator :=
  function_before _empty_field inner.

Definition model_fields : list FieldInfo :=
  [ required "title" (hooked str_or_none);
    required "year" (hooked str_or_int_or_none);
    required "rated" (hooked str_or_none);
    required "released" (hooked str_or_none);
    required "runtime" (hooked str_or_none);
    required "genre" (hooked str_or_none);
    required "director" (hooked str_or_none);
    required "writer" (hooked str_or_none);
    required "actors" (hooked str_or_none);
    required "plot" (hooked str_or_none);
    required "language" (hooked str_or_none);
    required "country" (hooked str_or_none);
    required "awards" (hooked str_or_none);
    required "poster" (hooked str_or_none);
    optional "ratings"
      (hooked (nullable (list_schema OMDbRating.validate))) VNone;
    required "metascore" (hooked int_or_none);
    required "imdb_rating"
      (hooked (function_before _change_commma_to_dot float_or_none));
    required "imdb_votes" (hooked str_or_none);
    with_alias (required "imdb_id" (hooked str_or_none)) "imdbID";
    required "type" (hooked str_or_none);
    with_alias (optional "dvd" (hooked str_or_none) VNone) "DVD";
    optional "total_seasons" (hooked str_or_none) VNone;
    optional "box_office" (hooked str_or_none) VNone;
    optional "production" (hooked str_or_none) VNone;
    optional "website" (hooked str_or_none) VNone;
    required "response" (hooked (validate_lax bool_schema)) ].

Definition validate : validator :=
  model_validate "Audiovisual" model_config model_fields.

(** Re-encoding an instance: [serialization_alias=to_snake]. *)
Definition dump : pyval -> pyval := model_dump to_snake.

Definition field (n : string) : option FieldInfo :=
  find (fun f => String.eqb (name f) n) model_fields.

End Audiovisual.

(** *** [AudiovisualView] *)

(** Modelled from the spec: the class [Rating] imported from [model],
    which is not part of this module; an aggregate object exposing a
    [rating] attribute. *)
Definition Rating (rating : pyval) : pyval :=
  VObject "Rating" [("rating", rating)].

Module AudiovisualView.

(** [if isinstance(v, Rating): return v.rating
    return v] *)
Definition _return_rating : validator :=
  fun v =>
    if isinstance v "Rating" then
      match getattr v "rating" with
      | Some r => Ok r
      | None => fail python_exception
      end
    else Ok v.

(** The [rating: float | None] field with its hook. *)
Definition rating : FieldInfo :=
  required "rating" (function_before _return_rating float_or_none).

(** The class sets [from_attributes] and no alias generator, so every
    field is read under its own name. *)
Definition model_config : ConfigDict :=
  {| populate_by_name := false;
     from_attributes := true;
     alias_generator := fun f => [f] |}.

Section Fields.

(** The validator of the [UUID] annotation belongs to pydantic; the view
    is modelled for any such validator. *)
Variable uuid_schema : validator.

Definition model_fields : list FieldInfo :=
  [ required "id" uuid_schema;
    required "title" str_or_none;
    required "year" str_or_int_or_none;
    required "runtime" str_or_none;
    required "genre" str_or_none;
    required "director" str_or_none;
    required "actors" str_or_none;
    required "plot" str_or_none;
    rating;
    required "type" (validate_lax str_schema) ].

Definition validate : validator :=
  model_validate "AudiovisualView" model_config model_fields.

End Fields.

End AudiovisualView.

(** *** [AudiovisualQuery], [AudiovisualRemovedMessage],
    [AudiovisualErrorMessage] *)

(** The configuration of a class that declares no alias generator. *)
Definition plain_config : ConfigDict :=
  {| populate_by_name := false;
     from_attributes := false;
     alias_generator := fun f => [f] |}.

Module AudiovisualQuery.

Definition model_fields : list FieldInfo :=
  [ required "id" (validate_lax str_schema) ].

Definition validate : validator :=
  model_validate "AudiovisualQuery" plain_config model_fields.

End AudiovisualQuery.

Module AudiovisualRemovedMessage.

Definition model_fields : list FieldInfo :=
  [ required "message" (validate_lax str_schema) ].

Definition validate : validator :=
  model_validate "AudiovisualRemovedMessage" plain_config model_fields.

End AudiovisualRemovedMessage.

Module AudiovisualErrorMessage.

Definition model_fields : list FieldInfo :=
  [ required "message" (validate_lax str_schema) ].

Definition validate : validator :=
  model_validate "AudiovisualErrorMessage" plain_config model_fields.

End AudiovisualErrorMessage.

(** ** Sample payloads *)

(** The four-key object of the end-to-end scenario. *)
Definition fargo_raw : list (string * pyval) :=
  [ ("Title", VStr "Fargo"); ("imdbRating", VStr "8,9");
    ("imdbID", VStr "tt0944947"); ("Response", VStr "true") ].

(** The provider keys of the other fields that have no default. *)
Definition other_required_keys : list string :=
  [ "Year"; "Rated"; "Released"; "Runtime"; "Genre"; "Director"; "Writer";
    "Actors"; "Plot"; "Language"; "Country"; "Awards"; "Poster";
    "Metascore"; "imdbVotes"; "Type" ].

Definition fargo_completed : list (string * pyval) :=
  fargo_raw ++ map (fun k => (k, VStr "N/A")) other_required_keys.

(** A payload as the provider sends it for a series. *)
Definition provider_payload : list (string * pyval) :=
  [ ("Title", VStr "Fargo"); ("Year", VStr "2014-2024");
    ("Rated", VStr "TV-MA"); ("Released", VStr "15 Apr 2014");
    ("Runtime", VStr "53 min"); ("Genre", VStr "Crime, Drama, Thriller");
    ("Director", VStr "N/A"); ("Writer", VStr "Noah Hawley");
    ("Actors", VStr "Billy Bob Thornton, Martin Freeman");
    ("Plot", VStr "Various chronicles of deception and murder.");
    ("Language", VStr "English"); ("Country", VStr "United States");
    ("Awards", VStr "Won 6 Primetime Emmys"); ("Poster", VStr "N/A");
    ("Ratings",
      VList [VDict [("Source", VStr "Internet Movie Database");
                    ("Value", VStr "8.9/10")]]);
    ("Metascore", VStr "N/A"); ("imdbRating", VStr "8,9");
    ("imdbVotes", VStr "412,345"); ("imdbID", VStr "tt0944947");
    ("Type", VStr "series"); ("totalSeasons", VStr "5");
    ("Response", VStr "True") ].

(** The payload without the entries of key [k]. *)
Definition without (k : string) (d : list (string * pyval))
  : list (string * pyval) :=
  filter (fun kv => negb (String.eqb (fst kv) k)) d.

(** The payload with [v] stored under [k], any previous entry removed. *)
Definition with_entry (k : string) (v : pyval) (d : list (string * pyval))
  : list (string * pyval) :=
  (k, v) :: without k d.

(** Two fields picked out of [Audiovisual.model_fields]. *)
Definition metascore_field : FieldInfo :=
  required "metascore" (Audiovisual.hooked int_or_none).

Definition response_field : FieldInfo :=
  required "response" (Audiovisual.hooked (validate_lax bool_schema)).

Definition title_field : FieldInfo :=
  required "title" (Audiovisual.hooked str_or_none).

Definition dvd_field : FieldInfo :=
  with_alias (optional "dvd" (Audiovisual.hooked str_or_none) VNone) "DVD".

Definition imdb_id_field : FieldInfo :=
  with_alias (required "imdb_id" (Audiovisual.hooked str_or_none)) "imdbID".

Definition has_default (f : FieldInfo) : bool :=
  match default f with Some _ => true | None => false end.

Definition post_title_field : FieldInfo :=
  optional "title"
    (function_after AudiovisualPost._replace_whitespaces_for_request str_or_none)
    VNone.

(** The rewriting of the title as the specification words it: every
    maximal run of whitespace becomes one "+".  [in_run] tells that the
    previous character was whitespace. *)
Fixpoint spec_join_runs (in_run : bool) (s : string) : string :=
  match s with
  | EmptyString => EmptyString
  | String c s' =>
      if is_whitespace c
      then (if in_run then spec_join_runs true s'
            else String "+"%char (spec_join_runs true s'))
      else String c (spec_join_runs false s')
  end.

(** What the hook does to one character. *)
Definition plus_for_space (c : ascii) : ascii :=
  if is_whitespace c then "+"%char else c.

Definition ratings_field : FieldInfo :=
  optional "ratings"
    (Audiovisual.hooked (nullable (list_schema OMDbRating.validate))) VNone.

(** The first of [keys] that is among [names]. *)
Definition first_present (keys names : list string) : option string :=
  find (fun k => existsb (String.eqb k) names) keys.

Fixpoint distinct (l : list string) : bool :=
  match l with
  | [] => true
  | x :: rest => negb (existsb (String.eqb x) rest) && distinct rest
  end.

(** The normalized form of a key: lower-case letters, digits and
    underscores only. *)
Definition is_snake (s : string) : bool :=
  str_forall (fun c => is_lower c || is_digit c || Ascii.eqb c "_"%char) s.

(** A payload whose rating list is empty. *)
Definition payload_without_ratings : list (string * pyval) :=
  with_entry "Ratings" (VList []) provider_payload.

(** A value that re-encoding leaves alone and that a validator returns
    unchanged. *)
Definition fixed_by (sch : validator) (v : pyval) : Prop :=
  model_dump to_snake v = v /\ sch v = Ok v.

(** The record [provider_payload] decodes to, but for its rating
    entries. *)
Definition decoded_with (ratings : pyval) : pyval :=
  VObject "Audiovisual"
    [ ("title", VStr "Fargo"); ("year", VStr "2014-2024");
      ("rated", VStr "TV-MA"); ("released", VStr "15 Apr 2014");
      ("runtime", VStr "53 min"); ("genre", VStr "Crime, Drama, Thriller");
      ("director", VNone); ("writer", VStr "Noah Hawley");
      ("actors", VStr "Billy Bob Thornton, Martin Freeman");
      ("plot", VStr "Various chronicles of deception and murder.");
      ("language", VStr "English"); ("country", VStr "United States");
      ("awards", VStr "Won 6 Primetime Emmys"); ("poster", VNone);
      ("ratings", ratings);
      ("metascore", VNone); ("imdb_rating", VFloat 8.9);
      ("imdb_votes", VStr "412,345"); ("imdb_id", VStr "tt0944947");
      ("type", VStr "series"); ("dvd", VNone);
      ("total_seasons", VStr "5"); ("box_office", VNone);
      ("production", VNone); ("website", VNone);
      ("response", VBool true) ].

Definition decoded_without_ratings : pyval := decoded_with (VList []).

Definition decoded_payload : pyval :=
  decoded_with
    (VList [VObject "OMDbRating"
              [("source", VStr "Internet Movie Database");
               ("value", VStr "8.9/10")]]).

(** ** Vocabulary of the further properties *)

(** The annotations of the class bodies, as far as the fields of
    [Audiovisual] use them. *)
Inductive annotation : Type :=
| AStr
| AInt
| AFloat
| ABool
| AOMDbRating
| AList (item : annotation)
| AUnion (a b : annotation)
| AOptional (a : annotation).

(** [conforms a v]: the value [v] is an instance of the annotation [a]. *)
Fixpoint conforms (a : annotation) (v : pyval) : bool :=
  match a with
  | AStr => match v with VStr _ => true | _ => false end
  | AInt => match v with VInt _ => true | _ => false end
  | AFloat => match v with VFloat _ => true | _ => false end
  | ABool => match v with VBool _ => true | _ => false end
  | AOMDbRating =>
      match v with
      | VObject cls [(k1, VStr _); (k2, VStr _)] =>
          String.eqb cls "OMDbRating" && String.eqb k1 "source"
          && String.eqb k2 "value"
      | _ => false
      end
  | AList item =>
      match v with VList l => forallb (conforms item) l | _ => false end
  | AUnion a1 a2 => conforms a1 v || conforms a2 v
  | AOptional a1 =>
      match v with VNone => true | _ => conforms a1 v end
  end.

(** The fields of [Audiovisual] with their annotations, as declared. *)
Definition Audiovisual_annotations : list (string * annotation) :=
  [ ("title", AOptional AStr);
    ("year", AOptional (AUnion AStr AInt));
    ("rated", AOptional AStr);
    ("released", AOptional AStr);
    ("runtime", AOptional AStr);
    ("genre", AOptional AStr);
    ("director", AOptional AStr);
    ("writer", AOptional AStr);
    ("actors", AOptional AStr);
    ("plot", AOptional AStr);
    ("language", AOptional AStr);
    ("country", AOptional AStr);
    ("awards", AOptional AStr);
    ("poster", AOptional AStr);
    ("ratings", AOptional (AList AOMDbRating));
    ("metascore", AOptional AInt);
    ("imdb_rating", AOptional AFloat);
    ("imdb_votes", AOptional AStr);
    ("imdb_id", AOptional AStr);
    ("type", AOptional AStr);
    ("dvd", AOptional AStr);
    ("total_seasons", AOptional AStr);
    ("box_office", AOptional AStr);
    ("production", AOptional AStr);
    ("website", AOptional AStr);
    ("response", ABool) ].

(** An attribute of a decoded record against its declaration. *)
Definition attr_conforms (decl : string * annotation) (kv : string * pyval)
  : Prop :=
  fst kv = fst decl /\ conforms (snd decl) (snd kv) = true.

(** Plain data: what [json.dumps] takes, no instance of a class inside. *)
Fixpoint is_plain (v : pyval) : bool :=
  match v with
  | VList l => forallb is_plain l
  | VDict d => forallb (fun kv => is_plain (snd kv)) d
  | VObject _ _ => false
  | _ => true
  end.

(** Every input key that some field of [Audiovisual] reads. *)
Definition recognised_keys : list string :=
  flat_map (lookup_keys Audiovisual.model_config) Audiovisual.model_fields.

(** The keys a class reads, for any class. *)
Definition keys_of (cfg : ConfigDict) (fs : list FieldInfo) : list string :=
  flat_map (lookup_keys cfg) fs.

(** A rating entry as the provider sends it, and as it is decoded. *)
Definition raw_entry (e : string * string) : pyval :=
  VDict [("Source", VStr (fst e)); ("Value", VStr (snd e))].

Definition decoded_entry (e : string * string) : pyval :=
  VObject "OMDbRating" [("source", VStr (fst e)); ("value", VStr (snd e))].

Definition no_whitespace (s : string) : bool :=
  str_forall (fun c => negb (is_whitespace c)) s.

(** The fields of [Audiovisual] whose annotation does not admit text. *)
Definition untexted : list string :=
  ["ratings"; "metascore"; "imdb_rating"; "response"].

(** "Breaking", a space, a tab, a space, "Bad". *)
Definition tabbed_title : string :=
  "Breaking " ++ String (ascii_of_nat 9) " Bad".

Definition post_record (imdb_id title year : pyval) : pyval :=
  VObject "AudiovisualPost"
    [("imdb_id", imdb_id); ("title", title); ("year", year)].

(** The outcome of a class with one mandatory text field [key]. *)
Definition single_text (cls key : string) (d : list (string * pyval))
  : result pyval :=
  match dict_get key d with
  | Some (VStr s) => Ok (VObject cls [(key, VStr s)])
  | Some _ => ValidationError [([Key key], string_type)]
  | None => ValidationError [([Key key], missing)]
  end.

(** The classes that declare an alias generator. *)
Definition aliased_classes : list (ConfigDict * list FieldInfo) :=
  [ (AudiovisualPost.model_config, AudiovisualPost.model_fields);
    (Audiovisual.model_config, Audiovisual.model_fields);
    (OMDbRating.model_config, OMDbRating.model_fields) ].

(** What a class reads its fields from: the entries of a mapping, or,
    under [from_attributes], the attributes of an object of another
    class. *)
Definition source_attrs (cls : string) (src : pyval)
  : option (list (string * pyval)) :=
  match src with
  | VDict d => Some d
  | VObject _ attrs => if isinstance src cls then None else Some attrs
  | _ => None
  end.

(** A stored record as the view receives it, with rating [r] and type
    [t]. *)
Definition stored_attrs (r t : pyval) : list (string * pyval) :=
  [ ("id", VStr "64e259a8-8512-415f-8f52-8b3d9103f6c6");
    ("title", VStr "Fargo"); ("year", VStr "2014-2024");
    ("runtime", VStr "53 min"); ("genre", VStr "Crime");
    ("director", VNone); ("writer", VStr "Noah Hawley");
    ("actors", VNone); ("plot", VNone);
    ("rating", r); ("type", t) ].

Definition stored_record (r t : pyval) : pyval :=
  VObject "AudiovisualModel" (stored_attrs r t).

(** What one attribute of a validated instance is: the name of its field
    with the value the field's validator returned. *)
Definition field_ok (cfg : ConfigDict) (d : list (string * pyval))
    (f : FieldInfo) (kv : string * pyval) : Prop :=
  fst kv = name f /\ validate_field cfg f d = Ok (snd kv).

(** * Properties *)

(** ** Validation of a list of fields *)

Section FieldsFacts.

Variable cfg : ConfigDict.
Variable d : list (string * pyval).

Lemma validate_fields_ok (fs : list FieldInfo) (attrs : list (string * pyval)) :
  validate_fields cfg fs d = Ok attrs <-> Forall2 (field_ok cfg d) fs attrs.
Proof.
  revert attrs. induction fs as [|f fs IH]; intros attrs; simpl.
  - split.
    + intros H. injection H as <-. constructor.
    + intros H. inversion H. reflexivity.
  - destruct (validate_field cfg f d) as [v|e] eqn:Hf;
      destruct (validate_fields cfg fs d) as [vs|e'] eqn:Hfs.
    + split.
      * intros H. injection H as <-. constructor.
        -- split; [reflexivity | exact Hf].
        -- apply IH. reflexivity.
      * intros H. inversion H as [|f' kv fs' attrs' [Hk Hv] Hrest]; subst.
        destruct kv as [k w]. simpl in *. subst k.
        rewrite Hf in Hv. injection Hv as ->.
        apply IH in Hrest. injection Hrest as ->. reflexivity.
    + split; [discriminate|].
      intros H. inversion H as [|f' kv fs' attrs' _ Hrest]; subst.
      apply IH in Hrest. discriminate.
    + split; [discriminate|].
      intros H. inversion H as [|f' kv fs' attrs' [_ Hv] _]; subst.
      rewrite Hf in Hv. discriminate.
    + split; [discriminate|].
      intros H. inversion H as [|f' kv fs' attrs' [_ Hv] _]; subst.
      rewrite Hf in Hv. discriminate.
Qed.

(** The instance holds, under a field's name, what that field
    validated to. *)
Lemma validated_attr (fs : list FieldInfo) attrs n f :
  validate_fields cfg fs d = Ok attrs ->
  find (fun g => String.eqb (name g) n) fs = Some f ->
  exists v, validate_field cfg f d = Ok v /\ dict_get n attrs = Some v.
Proof.
  intros H. apply validate_fields_ok in H.
  induction H as [|g kv fs' attrs' [Hk Hv] _ IH]; simpl; [discriminate|].
  destruct kv as [k w]. simpl in Hk, Hv. subst k.
  rewrite (String.eqb_sym n (name g)).
  destruct (String.eqb (name g) n) eqn:E.
  - intros Hfind. injection Hfind as <-. exists w. split; [exact Hv | reflexivity].
  - exact IH.
Qed.

(** One failing field fails the model, and its errors are reported. *)
Lemma failing_field (fs : list FieldInfo) f e :
  In f fs ->
  validate_field cfg f d = ValidationError e ->
  exists errs, validate_fields cfg fs d = ValidationError errs /\ incl e errs.
Proof.
  induction fs as [|g fs IH]; simpl; [tauto|].
  intros [->|Hin] Hf.
  - rewrite Hf. exists (e ++ errors_of (validate_fields cfg fs d))%list.
    split; [reflexivity | apply incl_appl, incl_refl].
  - destruct (IH Hin Hf) as [errs [Hfs Hincl]]. rewrite Hfs.
    destruct (validate_field cfg g d) as [v|e'].
    + exists (errors_of (Ok v) ++ errs)%list. split; [reflexivity|].
      simpl. exact Hincl.
    + exists (e' ++ errs)%list. split; [reflexivity|].
      apply incl_appr. exact Hincl.
Qed.

(** The model is accepted as soon as every field is. *)
Lemma all_fields_ok (fs : list FieldInfo) :
  (forall f, In f fs -> is_ok (validate_field cfg f d) = true) ->
  is_ok (validate_fields cfg fs d) = true.
Proof.
  induction fs as [|g fs IH]; simpl; intros H; [reflexivity|].
  assert (Hg : is_ok (validate_field cfg g d) = true) by (apply H; now left).
  assert (Hfs : is_ok (validate_fields cfg fs d) = true)
    by (apply IH; intros f Hf; apply H; now right).
  destruct (validate_field cfg g d); [|discriminate].
  destruct (validate_fields cfg fs d); [reflexivity | discriminate].
Qed.

End FieldsFacts.

(** A key that belongs to no lookup key of a field does not change how the
    field is resolved. *)
Lemma resolve_cons_other keys k0 v d :
  existsb (String.eqb k0) keys = false ->
  resolve keys ((k0, v) :: d) = resolve keys d.
Proof.
  induction keys as [|k keys IH]; simpl; [reflexivity|].
  intros H. apply orb_false_iff in H as [Hk Hrest].
  rewrite (String.eqb_sym k k0), Hk. rewrite (IH Hrest). reflexivity.
Qed.

(** Two mappings under which every field validates to the same values give
    the same instances. *)
Lemma validate_fields_ext cfg fs d1 d2 :
  (forall f v, In f fs ->
     validate_field cfg f d1 = Ok v <-> validate_field cfg f d2 = Ok v) ->
  forall attrs,
    validate_fields cfg fs d1 = Ok attrs <-> validate_fields cfg fs d2 = Ok attrs.
Proof.
  intros H attrs. rewrite !validate_fields_ok.
  revert attrs. induction fs as [|f fs IH]; intros attrs.
  - split; intros Hx; inversion Hx; constructor.
  - assert (IH' : forall attrs, Forall2 (field_ok cfg d1) fs attrs <->
                                Forall2 (field_ok cfg d2) fs attrs).
    { apply IH. intros g v Hg. apply H. now right. }
    split; intros Hx; inversion Hx as [|f' kv fs' attrs' [Hk Hv] Hrest]; subst;
      constructor; try (apply IH'; exact Hrest);
      (split; [exact Hk | apply (H f (snd kv)); [now left | exact Hv]]).
Qed.

(** ** The end-to-end scenario *)

(** C1, as the code has it: the four-key object alone is rejected, with one
    [missing] line for each of the sixteen other fields declared without a
    default; completed with those keys (here holding the sentinel), it
    decodes to a record with title "Fargo", rating 8.9, identifier
    "tt0944947" and success flag true. *)
Theorem C1_fargo_needs_required_keys :
  Audiovisual.validate (VDict fargo_raw)
    = ValidationError
        (map (fun k => ([Key k], missing))
           [ "year"; "rated"; "released"; "runtime"; "genre"; "director";
             "writer"; "actors"; "plot"; "language"; "country"; "awards";
             "poster"; "metascore"; "imdbVotes"; "type" ])
  /\ exists inst,
       Audiovisual.validate (VDict fargo_completed) = Ok inst
       /\ getattr inst "title" = Some (VStr "Fargo")
       /\ getattr inst "imdb_rating" = Some (VFloat 8.9)
       /\ getattr inst "imdb_id" = Some (VStr "tt0944947")
       /\ getattr inst "response" = Some (VBool true).
Proof.
  split; [vm_compute; reflexivity|].
  eexists. split; [vm_compute; reflexivity|].
  repeat split; vm_compute; reflexivity.
Qed.

(** C1 as stated fails: decoding the four-key object does not succeed. *)
Lemma C1_fargo_four_keys_rejected :
  ~ exists inst,
      Audiovisual.validate (VDict fargo_raw) = Ok inst
      /\ getattr inst "title" = Some (VStr "Fargo")
      /\ getattr inst "imdb_rating" = Some (VFloat 8.9)
      /\ getattr inst "imdb_id" = Some (VStr "tt0944947")
      /\ getattr inst "response" = Some (VBool true).
Proof.
  intros [inst [H _]]. vm_compute in H. discriminate H.
Qed.

(** ** The numeric rating *)

Lemma comma_found_nonempty s : re_search "," s = true -> truthy (VStr s) = true.
Proof. destruct s; [discriminate | reflexivity]. Qed.

(** C7: on a raw string the [imdb_rating] field yields absent when the
    string holds the sentinel; otherwise, when the string holds a comma,
    what Python's [float] reads from the string with its commas turned
    into dots ([ValueError] being the error of the field); otherwise what
    pydantic reads from the string itself.  So "7,1" and "7.1" both decode
    to 7.1, "1_000,5" decodes to 1000.5 as [float("1_000.5")] does, and
    "N/A" decodes to absent. *)
Theorem C7_imdb_rating_decoding :
  exists f,
    Audiovisual.field "imdb_rating" = Some f
    /\ (forall s,
          schema f (VStr s) =
            if re_search "N/A" s then Ok VNone
            else if re_search "," s then
              match py_float (re_sub is_comma "." s) with
              | Some x => Ok (VFloat x)
              | None => fail value_error
              end
            else
              match str_as_float s with
              | Some x => Ok (VFloat x)
              | None => fail float_parsing
              end)
    /\ re_sub is_comma "." "7,1" = "7.1"
    /\ schema f (VStr "7,1") = Ok (VFloat 7.1)
    /\ schema f (VStr "7.1") = Ok (VFloat 7.1)
    /\ schema f (VStr "1_000,5") = Ok (VFloat 1000.5)
    /\ schema f (VStr "N/A") = Ok VNone.
Proof.
  eexists. split; [reflexivity|].
  split; [|repeat split; vm_compute; reflexivity].
  intros s. cbn [schema required].
  unfold Audiovisual.hooked, function_before, Audiovisual._empty_field.
  destruct (re_search "N/A" s); [reflexivity|].
  unfold Audiovisual._change_commma_to_dot.
  destruct (re_search "," s) eqn:Hc.
  - rewrite (comma_found_nonempty s Hc). cbn [andb].
    destruct (py_float (re_sub is_comma "." s)); reflexivity.
  - rewrite andb_false_r. reflexivity.
Qed.

(** ** The rating of the public view *)

(** C8: a [Rating] aggregate is replaced by its [rating] attribute before
    the field is validated, so an aggregate holding a float projects to
    that float (8.3 for [rating = 8.3]); a plain float (5.0) is returned
    unchanged and an absent rating stays absent. *)
Theorem C8_view_rating_extraction :
  (forall r, schema AudiovisualView.rating (Rating r) = float_or_none r)
  /\ (forall x, schema AudiovisualView.rating (Rating (VFloat x)) = Ok (VFloat x))
  /\ (forall x, schema AudiovisualView.rating (VFloat x) = Ok (VFloat x))
  /\ schema AudiovisualView.rating VNone = Ok VNone
  /\ schema AudiovisualView.rating (Rating (VFloat 8.3)) = Ok (VFloat 8.3)
  /\ schema AudiovisualView.rating (VFloat 5.0) = Ok (VFloat 5.0).
Proof.
  repeat split; intros; reflexivity.
Qed.

(** ** The sentinel *)

Ltac each_field f H :=
  unfold Audiovisual.model_fields in H; cbn [In] in H;
  repeat (destruct H as [H|H]; [subst f|]); [..|contradiction H].

(** Field names are unique: looking a field up by its name finds it. *)
Lemma field_of_name f :
  In f Audiovisual.model_fields -> Audiovisual.field (name f) = Some f.
Proof. intros H. each_field f H; reflexivity. Qed.

Lemma hooked_sentinel inner s :
  re_search "N/A" s = true -> Audiovisual.hooked inner (VStr s) = inner VNone.
Proof.
  intros H. unfold Audiovisual.hooked, function_before, Audiovisual._empty_field.
  rewrite H. reflexivity.
Qed.

(** Every field runs [_empty_field] first, and every field but the success
    flag accepts the [None] it returns. *)
Lemma fields_are_hooked f :
  In f Audiovisual.model_fields ->
  exists inner,
    schema f = Audiovisual.hooked inner
    /\ (name f <> "response" -> inner VNone = Ok VNone).
Proof.
  intros H. each_field f H; eexists; (split; [reflexivity|]); intros Hn;
    try reflexivity.
  exfalso. apply Hn. reflexivity.
Qed.

Lemma sentinel_field f s :
  In f Audiovisual.model_fields -> name f <> "response" ->
  re_search "N/A" s = true ->
  schema f (VStr s) = Ok VNone.
Proof.
  intros Hin Hn Hs. destruct (fields_are_hooked f Hin) as [inner [-> Hnone]].
  rewrite (hooked_sentinel inner s Hs). apply Hnone, Hn.
Qed.

(** A decoded payload is an instance whose attributes are the validated
    fields. *)
Lemma validate_inv d inst :
  Audiovisual.validate (VDict d) = Ok inst ->
  exists attrs,
    inst = VObject "Audiovisual" attrs
    /\ validate_fields Audiovisual.model_config Audiovisual.model_fields d
       = Ok attrs.
Proof.
  unfold Audiovisual.validate, model_validate.
  destruct (validate_fields Audiovisual.model_config Audiovisual.model_fields d)
    as [attrs|e]; [|discriminate].
  intros H. injection H as <-. exists attrs. split; reflexivity.
Qed.

Lemma decoded_attr d inst f v :
  In f Audiovisual.model_fields ->
  Audiovisual.validate (VDict d) = Ok inst ->
  validate_field Audiovisual.model_config f d = Ok v ->
  getattr inst (name f) = Some v.
Proof.
  intros Hin Hv Hf.
  destruct (validate_inv d inst Hv) as [attrs [-> Hfs]].
  pose proof (field_of_name f Hin) as Hfind. unfold Audiovisual.field in Hfind.
  destruct (validated_attr Audiovisual.model_config d Audiovisual.model_fields
              attrs (name f) f Hfs Hfind) as [w [Hw Hget]].
  rewrite Hf in Hw. injection Hw as <-. exact Hget.
Qed.

Lemma sentinel_in_payload f s d k :
  In f Audiovisual.model_fields -> name f <> "response" ->
  re_search "N/A" s = true ->
  resolve (lookup_keys Audiovisual.model_config f) d = Some (k, VStr s) ->
  validate_field Audiovisual.model_config f d = Ok VNone
  /\ forall inst,
       Audiovisual.validate (VDict d) = Ok inst ->
       getattr inst (name f) = Some VNone.
Proof.
  intros Hin Hn Hs Hres.
  assert (Hf : validate_field Audiovisual.model_config f d = Ok VNone).
  { unfold validate_field. rewrite Hres, (sentinel_field f s Hin Hn Hs). reflexivity. }
  split; [exact Hf|].
  intros inst Hv. exact (decoded_attr d inst f VNone Hin Hv Hf).
Qed.

(** C3, as the code has it: for every field other than the success flag, a
    raw value that is exactly "N/A" validates to absent, whatever the
    declared type, and the decoded record holds absent (not zero, not the
    empty string) for that field. *)
Theorem C3_sentinel_yields_absent f :
  In f Audiovisual.model_fields -> name f <> "response" ->
  schema f (VStr "N/A") = Ok VNone
  /\ forall d k,
       resolve (lookup_keys Audiovisual.model_config f) d = Some (k, VStr "N/A") ->
       validate_field Audiovisual.model_config f d = Ok VNone
       /\ forall inst,
            Audiovisual.validate (VDict d) = Ok inst ->
            getattr inst (name f) = Some VNone.
Proof.
  intros Hin Hn. split.
  - apply sentinel_field; [exact Hin | exact Hn | reflexivity].
  - intros d k. apply sentinel_in_payload; [exact Hin | exact Hn | reflexivity].
Qed.

(** The sentinel on [metascore], an integer field. *)
Lemma C3_sentinel_yields_absent_witness :
  schema metascore_field (VStr "N/A") = Ok VNone
  /\ forall d k,
       resolve (lookup_keys Audiovisual.model_config metascore_field) d
         = Some (k, VStr "N/A") ->
       validate_field Audiovisual.model_config metascore_field d = Ok VNone
       /\ forall inst,
            Audiovisual.validate (VDict d) = Ok inst ->
            getattr inst (name metascore_field) = Some VNone.
Proof.
  apply (C3_sentinel_yields_absent metascore_field).
  - unfold Audiovisual.model_fields. cbn [In]. tauto.
  - simpl. discriminate.
Defined.

(** C3 as stated fails on the success flag: its "N/A" becomes [None], which
    the [bool] annotation rejects, so the payload is not decoded at all
    (the same payload with the provider's own flag is). *)
Lemma C3_success_flag_sentinel_rejected :
  In response_field Audiovisual.model_fields
  /\ schema response_field (VStr "N/A") = fail bool_type
  /\ is_ok (Audiovisual.validate (VDict provider_payload)) = true
  /\ Audiovisual.validate
       (VDict (with_entry "Response" (VStr "N/A") provider_payload))
     = ValidationError [([Key "Response"], bool_type)].
Proof.
  split; [unfold Audiovisual.model_fields; cbn [In]; tauto|].
  repeat split; vm_compute; reflexivity.
Qed.

(** C10, as the code has it: for every field other than the success flag,
    a raw string with "N/A" anywhere inside it validates to absent, and the
    decoded record holds absent for that field. *)
Theorem C10_sentinel_substring f s :
  In f Audiovisual.model_fields -> name f <> "response" ->
  re_search "N/A" s = true ->
  schema f (VStr s) = Ok VNone
  /\ forall d k,
       resolve (lookup_keys Audiovisual.model_config f) d = Some (k, VStr s) ->
       validate_field Audiovisual.model_config f d = Ok VNone
       /\ forall inst,
            Audiovisual.validate (VDict d) = Ok inst ->
            getattr inst (name f) = Some VNone.
Proof.
  intros Hin Hn Hs. split.
  - apply sentinel_field; assumption.
  - intros d k. apply sentinel_in_payload; assumption.
Qed.

(** A longer text around the sentinel, on [metascore]. *)
Lemma C10_sentinel_substring_witness :
  schema metascore_field (VStr "N/A approx.") = Ok VNone
  /\ forall d k,
       resolve (lookup_keys Audiovisual.model_config metascore_field) d
         = Some (k, VStr "N/A approx.") ->
       validate_field Audiovisual.model_config metascore_field d = Ok VNone
       /\ forall inst,
            Audiovisual.validate (VDict d) = Ok inst ->
            getattr inst (name metascore_field) = Some VNone.
Proof.
  apply (C10_sentinel_substring metascore_field "N/A approx.").
  - unfold Audiovisual.model_fields. cbn [In]. tauto.
  - simpl. discriminate.
  - reflexivity.
Defined.

(** C10 as stated fails on the success flag: a flag text that contains the
    sentinel is turned into [None] and then rejected, so no record is
    produced. *)
Lemma C10_success_flag_substring_rejected :
  In response_field Audiovisual.model_fields
  /\ re_search "N/A" "True (N/A)" = true
  /\ schema response_field (VStr "True (N/A)") = fail bool_type
  /\ Audiovisual.validate
       (VDict (with_entry "Response" (VStr "True (N/A)") provider_payload))
     = ValidationError [([Key "Response"], bool_type)].
Proof.
  split; [unfold Audiovisual.model_fields; cbn [In]; tauto|].
  repeat split; vm_compute; reflexivity.
Qed.

(** ** Fields whose keys are not in the payload *)

Lemma defaults_are_none f :
  In f Audiovisual.model_fields -> has_default f = true -> default f = Some VNone.
Proof. intros H. each_field f H; intros Hd; try reflexivity; discriminate Hd. Qed.

Lemma same_name_same_field f g :
  In f Audiovisual.model_fields -> In g Audiovisual.model_fields ->
  name g = name f -> g = f.
Proof.
  intros Hf Hg Hn. pose proof (field_of_name f Hf) as H1.
  pose proof (field_of_name g Hg) as H2. rewrite Hn, H1 in H2.
  injection H2 as ->. reflexivity.
Qed.

(** C2, as the code has it.  When no lookup key of a field is in the
    payload: a field declared with a default ([ratings], [dvd],
    [total_seasons], [box_office], [production], [website]) validates to
    its default [None], it is absent in the decoded record, and decoding
    succeeds as soon as the other fields validate; a field declared
    without a default makes decoding fail with a [missing] error. *)
Theorem C2_absent_keys f d :
  In f Audiovisual.model_fields ->
  resolve (lookup_keys Audiovisual.model_config f) d = None ->
  (has_default f = true ->
     validate_field Audiovisual.model_config f d = Ok VNone
     /\ (forall inst, Audiovisual.validate (VDict d) = Ok inst ->
                      getattr inst (name f) = Some VNone)
     /\ ((forall g, In g Audiovisual.model_fields -> name g <> name f ->
                    is_ok (validate_field Audiovisual.model_config g d) = true) ->
         is_ok (Audiovisual.validate (VDict d)) = true))
  /\ (has_default f = false ->
        exists errs,
          Audiovisual.validate (VDict d) = ValidationError errs
          /\ In ([Key (hd (name f) (lookup_keys Audiovisual.model_config f))],
                 missing) errs)
  /\ map name (filter has_default Audiovisual.model_fields)
     = ["ratings"; "dvd"; "total_seasons"; "box_office"; "production"; "website"].
Proof.
  intros Hin Hres. split; [|split; [|reflexivity]].
  - intros Hd.
    assert (Hf : validate_field Audiovisual.model_config f d = Ok VNone).
    { unfold validate_field. rewrite Hres, (defaults_are_none f Hin Hd). reflexivity. }
    split; [exact Hf|]. split.
    + intros inst Hv. exact (decoded_attr d inst f VNone Hin Hv Hf).
    + intros Hothers. unfold Audiovisual.validate, model_validate.
      assert (Hall : is_ok (validate_fields Audiovisual.model_config
                              Audiovisual.model_fields d) = true).
      { apply all_fields_ok. intros g Hg.
        destruct (String.eqb (name g) (name f)) eqn:E.
        - apply String.eqb_eq in E.
          rewrite (same_name_same_field f g Hin Hg E), Hf. reflexivity.
        - apply String.eqb_neq in E. apply Hothers; assumption. }
      destruct (validate_fields Audiovisual.model_config
                  Audiovisual.model_fields d); [reflexivity | discriminate Hall].
  - intros Hd. unfold has_default in Hd.
    destruct (default f) as [dv|] eqn:Hdef; [discriminate Hd|].
    assert (Hf : validate_field Audiovisual.model_config f d
                 = ValidationError
                     [([Key (hd (name f) (lookup_keys Audiovisual.model_config f))],
                       missing)]).
    { unfold validate_field. rewrite Hres, Hdef. reflexivity. }
    destruct (failing_field Audiovisual.model_config d Audiovisual.model_fields
                f _ Hin Hf) as [errs [Hfs Hincl]].
    exists errs. split.
    + unfold Audiovisual.validate, model_validate. rewrite Hfs. reflexivity.
    + apply Hincl. left. reflexivity.
Qed.

(** The provider's payload holds no key of [dvd], a field with a default. *)
Lemma C2_absent_keys_witness :
  validate_field Audiovisual.model_config dvd_field provider_payload = Ok VNone
  /\ (forall inst, Audiovisual.validate (VDict provider_payload) = Ok inst ->
                   getattr inst (name dvd_field) = Some VNone)
  /\ ((forall g, In g Audiovisual.model_fields -> name g <> name dvd_field ->
                 is_ok (validate_field Audiovisual.model_config g
                          provider_payload) = true) ->
      is_ok (Audiovisual.validate (VDict provider_payload)) = true).
Proof.
  refine (proj1 (C2_absent_keys dvd_field provider_payload _ _) _).
  - unfold Audiovisual.model_fields. cbn [In]. tauto.
  - reflexivity.
  - reflexivity.
Defined.

(** C2 as stated fails on [title], a field other than the success flag:
    without any of its keys the payload is not decoded. *)
Lemma C2_missing_title_rejected :
  In title_field Audiovisual.model_fields
  /\ name title_field <> "response"
  /\ resolve (lookup_keys Audiovisual.model_config title_field)
       (without "Title" provider_payload) = None
  /\ is_ok (Audiovisual.validate (VDict provider_payload)) = true
  /\ Audiovisual.validate (VDict (without "Title" provider_payload))
     = ValidationError [([Key "title"], missing)].
Proof.
  split; [unfold Audiovisual.model_fields; cbn [In]; tauto|].
  split; [discriminate|].
  repeat split; vm_compute; reflexivity.
Qed.

(** ** The keys of the identifier *)

Lemma validate_field_cons_other cfg f k0 v d :
  existsb (String.eqb k0) (lookup_keys cfg f) = false ->
  validate_field cfg f ((k0, v) :: d) = validate_field cfg f d.
Proof.
  intros H. unfold validate_field. rewrite (resolve_cons_other _ k0 v d H).
  reflexivity.
Qed.

Lemma imdb_id_keys :
  lookup_keys Audiovisual.model_config imdb_id_field = ["imdbID"; "imdb_id"].
Proof. reflexivity. Qed.

(** Under either of its two keys the identifier field validates to the same
    value. *)
Lemma imdb_id_under_both_keys d v w :
  dict_get "imdbID" d = None ->
  validate_field Audiovisual.model_config imdb_id_field (("imdbID", v) :: d) = Ok w
  <-> validate_field Audiovisual.model_config imdb_id_field (("imdb_id", v) :: d) = Ok w.
Proof.
  intros Hd. unfold validate_field. rewrite imdb_id_keys.
  cbn [resolve dict_get]. change (String.eqb "imdbID" "imdbID") with true.
  change (String.eqb "imdbID" "imdb_id") with false.
  change (String.eqb "imdb_id" "imdb_id") with true.
  cbv iota. rewrite Hd.
  destruct (schema imdb_id_field v); split; intros H;
    solve [exact H | discriminate H].
Qed.

(** C4, as the code has it.  The identifier is looked up under "imdbID"
    (the alias given on the field, which replaces the generated camelCase
    and PascalCase spellings) and then under the field's own name
    "imdb_id": a payload decodes to the same record with the identifier
    under either of these two keys.  Under the camelCase key "imdbId" the
    identifier is not found and decoding fails with a [missing] error. *)
Theorem C4_identifier_keys d v :
  dict_get "imdbID" d = None ->
  dict_get "imdb_id" d = None ->
  (forall inst,
     Audiovisual.validate (VDict (("imdbID", v) :: d)) = Ok inst
     <-> Audiovisual.validate (VDict (("imdb_id", v) :: d)) = Ok inst)
  /\ exists errs,
       Audiovisual.validate (VDict (("imdbId", v) :: d)) = ValidationError errs
       /\ In ([Key "imdbID"], missing) errs.
Proof.
  intros Hd Hn. split.
  - assert (Hfs : forall attrs,
              validate_fields Audiovisual.model_config Audiovisual.model_fields
                (("imdbID", v) :: d) = Ok attrs
              <-> validate_fields Audiovisual.model_config Audiovisual.model_fields
                    (("imdb_id", v) :: d) = Ok attrs).
    { apply validate_fields_ext. intros f w Hin.
      each_field f Hin;
        first [ rewrite !validate_field_cons_other by (vm_compute; reflexivity);
                reflexivity
              | apply imdb_id_under_both_keys; exact Hd ]. }
    intros inst. unfold Audiovisual.validate, model_validate.
    destruct (validate_fields Audiovisual.model_config Audiovisual.model_fields
                (("imdbID", v) :: d)) as [a1|e1];
      destruct (validate_fields Audiovisual.model_config Audiovisual.model_fields
                  (("imdb_id", v) :: d)) as [a2|e2].
    + destruct (Hfs a1) as [H12 _]. specialize (H12 eq_refl).
      injection H12 as ->. reflexivity.
    + destruct (Hfs a1) as [H12 _]. specialize (H12 eq_refl). discriminate H12.
    + destruct (Hfs a2) as [_ H21]. specialize (H21 eq_refl). discriminate H21.
    + split; intros H; discriminate H.
  - assert (Hf : validate_field Audiovisual.model_config imdb_id_field
                   (("imdbId", v) :: d)
                 = ValidationError [([Key "imdbID"], missing)]).
    { rewrite validate_field_cons_other by reflexivity.
      unfold validate_field. rewrite imdb_id_keys. cbn [resolve].
      rewrite Hd, Hn. reflexivity. }
    assert (Hin : In imdb_id_field Audiovisual.model_fields)
      by (unfold Audiovisual.model_fields; cbn [In]; tauto).
    destruct (failing_field Audiovisual.model_config (("imdbId", v) :: d)
                Audiovisual.model_fields imdb_id_field _ Hin Hf)
      as [errs [Hfs Hincl]].
    exists errs. split.
    + unfold Audiovisual.validate, model_validate. rewrite Hfs. reflexivity.
    + apply Hincl. left. reflexivity.
Qed.

(** The provider's payload, its identifier moved from one key to another. *)
Lemma C4_identifier_keys_witness :
  (forall inst,
     Audiovisual.validate
       (VDict (("imdbID", VStr "tt0944947") :: without "imdbID" provider_payload))
     = Ok inst
     <-> Audiovisual.validate
           (VDict (("imdb_id", VStr "tt0944947") :: without "imdbID" provider_payload))
         = Ok inst)
  /\ exists errs,
       Audiovisual.validate
         (VDict (("imdbId", VStr "tt0944947") :: without "imdbID" provider_payload))
       = ValidationError errs
       /\ In ([Key "imdbID"], missing) errs.
Proof.
  apply (C4_identifier_keys (without "imdbID" provider_payload) (VStr "tt0944947"));
    reflexivity.
Defined.

(** C4 as stated fails: with the identifier under "imdbID" the payload
    decodes and holds "tt0944947"; the same payload with the identifier
    under "imdbId" is rejected. *)
Lemma C4_camel_case_identifier_rejected :
  to_camel "imdb_id" = "imdbId"
  /\ (exists inst,
     Audiovisual.validate
       (VDict (with_entry "imdbID" (VStr "tt0944947") provider_payload)) = Ok inst
     /\ getattr inst "imdb_id" = Some (VStr "tt0944947"))
  /\ Audiovisual.validate
       (VDict (with_entry "imdbId" (VStr "tt0944947")
                 (without "imdbID" provider_payload)))
     = ValidationError [([Key "imdbID"], missing)].
Proof.
  split; [vm_compute; reflexivity|]. split.
  - eexists. split; vm_compute; reflexivity.
  - vm_compute. reflexivity.
Qed.

(** ** The title of the query *)

Lemma re_sub_one_char p r s :
  re_sub p (String r EmptyString) s = str_map (fun c => if p c then r else c) s.
Proof.
  induction s as [|c s IH]; simpl; [reflexivity|].
  rewrite IH. destruct (p c); reflexivity.
Qed.

Lemma str_map_length f s : String.length (str_map f s) = String.length s.
Proof. induction s as [|c s IH]; simpl; [reflexivity | now rewrite IH]. Qed.

Lemma str_map_get f s i :
  String.get i (str_map f s) = option_map f (String.get i s).
Proof.
  revert i. induction s as [|c s IH]; intros i; simpl; [reflexivity|].
  destruct i; [reflexivity | apply IH].
Qed.

(** C5, as the code has it: a title that is a string has each of its
    whitespace characters replaced by one "+", the other characters being
    kept in place (so the length does not change, "Breaking Bad" becomes
    "Breaking+Bad" and the empty title stays empty); a title that is
    [None], or that the payload does not hold, stays absent. *)
Theorem C5_title_whitespace_to_plus :
  (forall s,
     schema post_title_field (VStr s) = Ok (VStr (str_map plus_for_space s)))
  /\ (forall s, String.length (str_map plus_for_space s) = String.length s)
  /\ (forall s i,
        String.get i (str_map plus_for_space s)
        = option_map plus_for_space (String.get i s))
  /\ In post_title_field AudiovisualPost.model_fields
  /\ schema post_title_field (VStr "Breaking Bad") = Ok (VStr "Breaking+Bad")
  /\ schema post_title_field VNone = Ok VNone
  /\ (forall d, dict_get "title" d = None ->
        validate_field AudiovisualPost.model_config post_title_field d = Ok VNone).
Proof.
  split; [|split; [|split; [|split; [|split; [|split]]]]].
  - intros s. cbn [schema post_title_field optional].
    unfold function_after, str_or_none, nullable, validate_lax,
      AudiovisualPost._replace_whitespaces_for_request.
    destruct s as [|c s]; [reflexivity|].
    cbn [truthy String.eqb negb]. rewrite re_sub_one_char. reflexivity.
  - intros s. apply str_map_length.
  - intros s i. apply str_map_get.
  - unfold AudiovisualPost.model_fields. cbn [In]. tauto.
  - vm_compute. reflexivity.
  - reflexivity.
  - intros d Hd. unfold validate_field.
    change (lookup_keys AudiovisualPost.model_config post_title_field)
      with ["title"].
    cbn [resolve]. rewrite Hd. reflexivity.
Qed.

(** A title with one space, and a query that holds no title. *)
Lemma C5_title_whitespace_to_plus_witness :
  schema post_title_field (VStr "Breaking Bad") = Ok (VStr "Breaking+Bad")
  /\ validate_field AudiovisualPost.model_config post_title_field
       [("year", VInt 2008)] = Ok VNone.
Proof.
  destruct C5_title_whitespace_to_plus as [_ [_ [_ [_ [Hbb [_ Habsent]]]]]].
  split; [exact Hbb | apply Habsent; reflexivity].
Defined.

(** C5 as stated fails: a run of two spaces becomes two "+", where the
    rewriting of runs gives one. *)
Lemma C5_whitespace_run_not_collapsed :
  schema post_title_field (VStr "Breaking  Bad") = Ok (VStr "Breaking++Bad")
  /\ spec_join_runs false "Breaking  Bad" = "Breaking+Bad"
  /\ schema post_title_field (VStr "Breaking  Bad")
     <> Ok (VStr (spec_join_runs false "Breaking  Bad")).
Proof.
  split; [vm_compute; reflexivity|].
  split; [vm_compute; reflexivity|].
  vm_compute. discriminate.
Qed.

(** ** The keys of a rating entry *)

Lemma rating_entry_key_missing (n key : string) d :
  lookup_keys OMDbRating.model_config (required n (validate_lax str_schema))
    = [key] ->
  In (required n (validate_lax str_schema)) OMDbRating.model_fields ->
  dict_get key d = None ->
  exists errs,
    OMDbRating.validate (VDict d) = ValidationError errs
    /\ In ([Key key], missing) errs.
Proof.
  intros Hk Hin Hd.
  assert (Hf : validate_field OMDbRating.model_config
                 (required n (validate_lax str_schema)) d
               = ValidationError [([Key key], missing)]).
  { unfold validate_field. rewrite Hk. cbn [resolve]. rewrite Hd. reflexivity. }
  destruct (failing_field OMDbRating.model_config d OMDbRating.model_fields
              _ _ Hin Hf) as [errs [Hfs Hincl]].
  exists errs. split.
  - unfold OMDbRating.validate, model_validate. rewrite Hfs. reflexivity.
  - apply Hincl. left. reflexivity.
Qed.

(** C6, as the code has it: a rating entry is decoded from the PascalCase
    keys "Source" and "Value" only, which are the single lookup key of
    each field; a mapping that holds two strings under them decodes to the
    entry, and a mapping without one of them is rejected with a [missing]
    error for that key, whatever it holds under "source" and "value". *)
Theorem C6_rating_entry_keys d s v :
  dict_get "Source" d = Some (VStr s) ->
  dict_get "Value" d = Some (VStr v) ->
  OMDbRating.validate (VDict d)
    = Ok (VObject "OMDbRating" [("source", VStr s); ("value", VStr v)])
  /\ map (lookup_keys OMDbRating.model_config) OMDbRating.model_fields
     = [["Source"]; ["Value"]]
  /\ (forall d',
        (dict_get "Source" d' = None ->
         exists errs,
           OMDbRating.validate (VDict d') = ValidationError errs
           /\ In ([Key "Source"], missing) errs)
        /\ (dict_get "Value" d' = None ->
            exists errs,
              OMDbRating.validate (VDict d') = ValidationError errs
              /\ In ([Key "Value"], missing) errs)).
Proof.
  intros Hs Hv.
  assert (Hkeys : map (lookup_keys OMDbRating.model_config) OMDbRating.model_fields
                  = [["Source"]; ["Value"]]) by reflexivity.
  split; [|split; [exact Hkeys|]].
  - unfold OMDbRating.validate, model_validate, OMDbRating.model_fields.
    cbn [validate_fields]. unfold validate_field.
    change (lookup_keys OMDbRating.model_config
              (required "source" (validate_lax str_schema))) with ["Source"].
    change (lookup_keys OMDbRating.model_config
              (required "value" (validate_lax str_schema))) with ["Value"].
    cbn [resolve]. rewrite Hs, Hv. reflexivity.
  - intros d'. split; intros Hd'.
    + apply (rating_entry_key_missing "source" "Source" d' eq_refl);
        [left; reflexivity | exact Hd'].
    + apply (rating_entry_key_missing "value" "Value" d' eq_refl);
        [right; left; reflexivity | exact Hd'].
Qed.

(** An entry as the provider sends it. *)
Lemma C6_rating_entry_keys_witness :
  OMDbRating.validate
    (VDict [("Source", VStr "Internet Movie Database"); ("Value", VStr "8.9/10")])
    = Ok (VObject "OMDbRating"
            [("source", VStr "Internet Movie Database"); ("value", VStr "8.9/10")])
  /\ map (lookup_keys OMDbRating.model_config) OMDbRating.model_fields
     = [["Source"]; ["Value"]]
  /\ (forall d',
        (dict_get "Source" d' = None ->
         exists errs,
           OMDbRating.validate (VDict d') = ValidationError errs
           /\ In ([Key "Source"], missing) errs)
        /\ (dict_get "Value" d' = None ->
            exists errs,
              OMDbRating.validate (VDict d') = ValidationError errs
              /\ In ([Key "Value"], missing) errs)).
Proof.
  apply (C6_rating_entry_keys
           [("Source", VStr "Internet Movie Database"); ("Value", VStr "8.9/10")]
           "Internet Movie Database" "8.9/10"); reflexivity.
Defined.

(** C6 as stated fails: an entry supplied under the camelCase keys is
    rejected, both fields being reported missing. *)
Lemma C6_camel_case_entry_rejected :
  map to_camel (map name OMDbRating.model_fields) = ["source"; "value"]
  /\ OMDbRating.validate
       (VDict [("source", VStr "Internet Movie Database"); ("value", VStr "8.9/10")])
     = ValidationError [([Key "Source"], missing); ([Key "Value"], missing)].
Proof. split; vm_compute; reflexivity. Qed.

(** ** Re-encoding *)

Lemma distinct_NoDup l : distinct l = true -> NoDup l.
Proof.
  induction l as [|x l IH]; simpl; intros H; [constructor|].
  apply andb_true_iff in H as [Hx Hl]. constructor; [|apply IH, Hl].
  intros Hin. apply negb_true_iff in Hx.
  assert (existsb (String.eqb x) l = true) as Hex.
  { apply existsb_exists. exists x. split; [exact Hin | apply String.eqb_refl]. }
  rewrite Hex in Hx. discriminate Hx.
Qed.

Lemma Forall2_impl_in {A B} (P Q : A -> B -> Prop) l1 l2 :
  Forall2 P l1 l2 ->
  (forall a b, In (a, b) (combine l1 l2) -> P a b -> Q a b) ->
  Forall2 Q l1 l2.
Proof.
  induction 1 as [|a b l1 l2 Hab _ IH]; intros H; constructor.
  - apply H; [left; reflexivity | exact Hab].
  - apply IH. intros a' b' Hin. apply H. right. exact Hin.
Qed.

Lemma model_dump_object ser c attrs :
  model_dump ser (VObject c attrs)
  = VDict (map (fun kv => (ser (fst kv), model_dump ser (snd kv))) attrs).
Proof.
  cbn [model_dump]. f_equal.
  induction attrs as [|[k x] rest IH]; [reflexivity|].
  cbn [map fst snd]. rewrite <- IH. reflexivity.
Qed.

Lemma dict_get_absent k (attrs : list (string * pyval)) :
  existsb (String.eqb k) (map fst attrs) = false -> dict_get k attrs = None.
Proof.
  induction attrs as [|[k' x] rest IH]; simpl; [reflexivity|].
  intros H. apply orb_false_iff in H as [Hk Hrest].
  rewrite Hk. apply IH, Hrest.
Qed.

Lemma resolve_first_present keys (attrs : list (string * pyval)) k v :
  first_present keys (map fst attrs) = Some k ->
  dict_get k attrs = Some v ->
  resolve keys attrs = Some (k, v).
Proof.
  unfold first_present. induction keys as [|a keys IH]; simpl; [discriminate|].
  destruct (existsb (String.eqb a) (map fst attrs)) eqn:E.
  - intros Ha Hget. injection Ha as ->. rewrite Hget. reflexivity.
  - intros Hfind Hget. rewrite (dict_get_absent a attrs E). apply IH; assumption.
Qed.

Lemma attr_names fs (attrs : list (string * pyval)) :
  Forall2 (fun f kv => fst kv = name f) fs attrs ->
  map fst attrs = map name fs.
Proof. induction 1 as [|f kv fs attrs H _ IH]; simpl; congruence. Qed.

Lemma dict_get_at fs (attrs : list (string * pyval)) f kv :
  Forall2 (fun f kv => fst kv = name f) fs attrs ->
  NoDup (map name fs) ->
  In (f, kv) (combine fs attrs) ->
  dict_get (name f) attrs = Some (snd kv).
Proof.
  induction 1 as [|g kw fs attrs Hg _ IH]; simpl; [tauto|].
  intros Hnd [Heq|Hin].
  - injection Heq as -> ->. destruct kv as [k w]. simpl in *. subst k.
    rewrite String.eqb_refl. reflexivity.
  - inversion Hnd as [|x l Hnotin Hnd']; subst.
    destruct kw as [k w]. simpl in Hg. subst k.
    destruct (String.eqb (name f) (name g)) eqn:E.
    + exfalso. apply Hnotin. apply String.eqb_eq in E. rewrite <- E.
      apply in_map. exact (in_combine_l _ _ _ _ Hin).
    + apply IH; assumption.
Qed.

(** A mapping that holds, under the name of every field, a value the
    field's validator returns unchanged, validates to itself, provided
    each field finds its own name first among its lookup keys. *)
Lemma revalidate cfg fs (attrs : list (string * pyval)) :
  NoDup (map name fs) ->
  (forall f, In f fs ->
     first_present (lookup_keys cfg f) (map name fs) = Some (name f)) ->
  Forall2 (fun f kv => fst kv = name f /\ schema f (snd kv) = Ok (snd kv))
    fs attrs ->
  validate_fields cfg fs attrs = Ok attrs.
Proof.
  intros Hnd Hkeys Hall. apply validate_fields_ok.
  assert (Hnames : Forall2 (fun f kv => fst kv = name f) fs attrs).
  { eapply Forall2_impl_in; [exact Hall|]. intros a b _ [H _]. exact H. }
  eapply Forall2_impl_in; [exact Hall|].
  intros f kv Hin [Hk Hs]. split; [exact Hk|].
  unfold validate_field.
  rewrite (resolve_first_present (lookup_keys cfg f) attrs (name f) (snd kv)).
  - rewrite Hs. reflexivity.
  - rewrite (attr_names fs attrs Hnames). apply Hkeys.
    exact (in_combine_l _ _ _ _ Hin).
  - exact (dict_get_at fs attrs f kv Hnames Hnd Hin).
Qed.


(** What the validators of the fields return is fixed by them. *)

Lemma float_as_int_int f v : float_as_int f = Ok v -> exists z, v = VInt z.
Proof.
  unfold float_as_int. destruct (Prim2SF f) as [s|s| |s m e]; try discriminate.
  - intros H. injection H as <-. eexists; reflexivity.
  - repeat match goal with
           | |- context [if ?b then _ else _] => destruct b
           end;
      intros H; try discriminate H; injection H as <-; eexists; reflexivity.
Qed.

(** The shape of what the lax validators return. *)
Lemma str_schema_ok raw v :
  validate_lax str_schema raw = Ok v -> exists s, v = VStr s.
Proof.
  destruct raw; cbn; intros H; try discriminate H.
  injection H as <-. eexists; reflexivity.
Qed.

Lemma lax_int_ok raw v :
  validate_lax int_schema raw = Ok v -> exists z, v = VInt z.
Proof.
  destruct raw; cbn [validate_lax]; intros H;
    try (injection H as <-; eexists; reflexivity);
    try exact (float_as_int_int _ _ H).
  - discriminate H.
  - destruct (str_as_int s); [|discriminate H].
    injection H as <-. eexists; reflexivity.
  - destruct (as_double (VList items)) eqn:E; [discriminate E | discriminate H].
  - destruct (as_double (VDict entries)) eqn:E; [discriminate E | discriminate H].
  - destruct (as_double (VObject cls attrs)); [|discriminate H].
    exact (float_as_int_int _ _ H).
Qed.

Lemma lax_float_ok raw v :
  validate_lax float_schema raw = Ok v -> exists x, v = VFloat x.
Proof.
  destruct raw; cbn [validate_lax]; intros H;
    try (injection H as <-; eexists; reflexivity).
  - discriminate H.
  - destruct (as_double (VInt z)); [|discriminate H].
    injection H as <-. eexists; reflexivity.
  - destruct (str_as_float s); [|discriminate H].
    injection H as <-. eexists; reflexivity.
  - discriminate H.
  - discriminate H.
  - destruct (as_double (VObject cls attrs)); [|discriminate H].
    injection H as <-. eexists; reflexivity.
Qed.

Lemma int_as_bool_ok z v : int_as_bool z = Ok v -> exists b, v = VBool b.
Proof.
  unfold int_as_bool. destruct (z =? 0); [|destruct (z =? 1)]; intros H;
    try discriminate H; injection H as <-; eexists; reflexivity.
Qed.

Lemma lax_bool_ok raw v :
  validate_lax bool_schema raw = Ok v -> exists b, v = VBool b.
Proof.
  assert (Hgen : forall x,
             match as_i64 x with
             | Some z => int_as_bool z
             | None =>
                 match as_double x with
                 | Some f =>
                     match float_as_int f with
                     | Ok (VInt z) => int_as_bool z
                     | _ => fail bool_type
                     end
                 | None => fail bool_type
                 end
             end = Ok v -> exists b, v = VBool b).
  { intros x. destruct (as_i64 x); [apply int_as_bool_ok|].
    destruct (as_double x) as [f|]; [|discriminate].
    destruct (float_as_int f) as [w|e]; [|discriminate].
    destruct w; try discriminate. apply int_as_bool_ok. }
  destruct raw; cbn [validate_lax]; intros H;
    try match type of H with
        | context [as_i64 ?x] => exact (Hgen x H)
        end.
  - injection H as <-. eexists; reflexivity.
  - destruct (str_as_bool s); [|discriminate H].
    injection H as <-. eexists; reflexivity.
Qed.

Lemma str_or_int_ok raw v :
  union_schema [str_schema; int_schema] raw = Ok v ->
  (exists s, v = VStr s /\ raw = v) \/ (exists z, v = VInt z).
Proof.
  unfold union_schema. cbn [map first_ok]. unfold tagged.
  destruct (validate_strict str_schema raw) as [w|e] eqn:Es.
  - intros H. injection H as <-. left.
    destruct raw; cbn in Es; try discriminate Es.
    injection Es as <-. eexists; split; reflexivity.
  - destruct (validate_strict int_schema raw) as [w|e'] eqn:Ei.
    + intros H. injection H as <-. right.
      destruct raw; cbn in Ei; try discriminate Ei.
      injection Ei as <-. eexists; reflexivity.
    + destruct (validate_lax str_schema raw) as [w|e2] eqn:Ls.
      * destruct raw; cbn in Es; discriminate.
      * destruct (validate_lax int_schema raw) as [w|e3] eqn:Li; [|discriminate].
        intros H. injection H as <-. right. exact (lax_int_ok raw w Li).
Qed.

Lemma nullable_ok inner raw v :
  nullable inner raw = Ok v -> v = VNone \/ inner raw = Ok v.
Proof.
  destruct raw; cbn [nullable]; intros H; try (right; exact H).
  injection H as <-. left. reflexivity.
Qed.

(** A hooked validator runs the validator it wraps on [None], for a text
    that holds the sentinel, or on the raw value, which is then not such a
    text. *)
Lemma hooked_cases inner raw v :
  Audiovisual.hooked inner raw = Ok v ->
  inner VNone = Ok v
  \/ (inner raw = Ok v /\ forall s, raw = VStr s -> re_search "N/A" s = false).
Proof.
  unfold Audiovisual.hooked, function_before, Audiovisual._empty_field.
  destruct raw; try (intros H; right; split; [exact H | discriminate]).
  destruct (re_search "N/A" s) eqn:E; intros H; [left; exact H|].
  right. split; [exact H|]. intros s' Hs. injection Hs as <-. exact E.
Qed.

Lemma hooked_unfold inner v :
  Audiovisual.hooked inner v =
    match v with
    | VStr s => if re_search "N/A" s then inner VNone else inner v
    | _ => inner v
    end.
Proof.
  unfold Audiovisual.hooked, function_before, Audiovisual._empty_field.
  destruct v; try reflexivity. destruct (re_search "N/A" s); reflexivity.
Qed.

Ltac ok_inv :=
  repeat match goal with
    | H : Ok _ = Ok _ |- _ => injection H as <-
    | H : ValidationError _ = Ok _ |- _ => discriminate H
    | H : fail _ = Ok _ |- _ => discriminate H
    end.

Ltac fixed := split; [reflexivity | rewrite hooked_unfold; reflexivity].

Lemma str_fixed raw v :
  Audiovisual.hooked str_or_none raw = Ok v ->
  fixed_by (Audiovisual.hooked str_or_none) v.
Proof.
  intros H. destruct (hooked_cases _ _ _ H) as [Hn|[Hr Hs]].
  - injection Hn as <-. fixed.
  - destruct (nullable_ok _ _ _ Hr) as [->|Hl]; [fixed|].
    destruct raw; try discriminate Hl. injection Hl as <-.
    split; [reflexivity|]. rewrite hooked_unfold, (Hs s eq_refl). reflexivity.
Qed.

Lemma str_or_int_fixed raw v :
  Audiovisual.hooked str_or_int_or_none raw = Ok v ->
  fixed_by (Audiovisual.hooked str_or_int_or_none) v.
Proof.
  intros H. destruct (hooked_cases _ _ _ H) as [Hn|[Hr Hs]].
  - injection Hn as <-. fixed.
  - destruct (nullable_ok _ _ _ Hr) as [->|Hl]; [fixed|].
    destruct (str_or_int_ok raw v Hl) as [[s [-> Hraw]]|[z ->]]; [|fixed].
    split; [reflexivity|]. rewrite hooked_unfold, (Hs s Hraw). reflexivity.
Qed.

Lemma int_fixed raw v :
  Audiovisual.hooked int_or_none raw = Ok v ->
  fixed_by (Audiovisual.hooked int_or_none) v.
Proof.
  intros H. destruct (hooked_cases _ _ _ H) as [Hn|[Hr _]].
  - injection Hn as <-. fixed.
  - destruct (nullable_ok _ _ _ Hr) as [->|Hl]; [fixed|].
    destruct (lax_int_ok raw v Hl) as [z ->]. fixed.
Qed.

Lemma bool_fixed raw v :
  Audiovisual.hooked (validate_lax bool_schema) raw = Ok v ->
  fixed_by (Audiovisual.hooked (validate_lax bool_schema)) v.
Proof.
  intros H. destruct (hooked_cases _ _ _ H) as [Hn|[Hr _]].
  - discriminate Hn.
  - destruct (lax_bool_ok raw v Hr) as [b ->]. fixed.
Qed.

(** The comma hook followed by the [float | None] validator returns a
    float or [None]. *)
Lemma comma_hook_ok raw v :
  function_before Audiovisual._change_commma_to_dot float_or_none raw = Ok v ->
  v = VNone \/ exists x, v = VFloat x.
Proof.
  unfold function_before.
  destruct (Audiovisual._change_commma_to_dot raw) as [w|e]; [|discriminate].
  intros H. destruct (nullable_ok _ _ _ H) as [->|Hl]; [left; reflexivity|].
  right. exact (lax_float_ok w v Hl).
Qed.

Lemma float_fixed raw v :
  Audiovisual.hooked
    (function_before Audiovisual._change_commma_to_dot float_or_none) raw = Ok v ->
  fixed_by
    (Audiovisual.hooked
       (function_before Audiovisual._change_commma_to_dot float_or_none)) v.
Proof.
  intros H. destruct (hooked_cases _ _ _ H) as [Hn|[Hr _]].
  - injection Hn as <-. fixed.
  - destruct (comma_hook_ok raw v Hr) as [->|[x ->]]; fixed.
Qed.

Lemma ratings_fixed v :
  v = VNone \/ v = VList [] -> fixed_by (schema ratings_field) v.
Proof. intros [->| ->]; split; reflexivity. Qed.

Lemma validated_value_fixed f d v :
  In f Audiovisual.model_fields ->
  validate_field Audiovisual.model_config f d = Ok v ->
  (name f = "ratings" -> v = VNone \/ v = VList []) ->
  fixed_by (schema f) v.
Proof.
  intros Hin Hv Hr. unfold validate_field in Hv.
  destruct (resolve (lookup_keys Audiovisual.model_config f) d) as [[k raw]|].
  - destruct (schema f raw) as [w|e] eqn:Hs; [|discriminate Hv].
    injection Hv as <-.
    each_field f Hin; cbn [schema required optional with_alias] in Hs |- *;
      first [ apply (str_fixed raw); exact Hs
            | apply (str_or_int_fixed raw); exact Hs
            | apply (int_fixed raw); exact Hs
            | apply (float_fixed raw); exact Hs
            | apply (bool_fixed raw); exact Hs
            | apply ratings_fixed; apply Hr; reflexivity ].
  - each_field f Hin; cbn [default required optional with_alias] in Hv;
      first [ discriminate Hv | injection Hv as <-; split; reflexivity ].
Qed.

Lemma names_are_distinct : NoDup (map name Audiovisual.model_fields).
Proof. apply distinct_NoDup. vm_compute. reflexivity. Qed.

Lemma own_name_found f :
  In f Audiovisual.model_fields ->
  first_present (lookup_keys Audiovisual.model_config f)
    (map name Audiovisual.model_fields) = Some (name f).
Proof. intros H. each_field f H; vm_compute; reflexivity. Qed.

Lemma names_are_normalized f :
  In f Audiovisual.model_fields -> to_snake (name f) = name f.
Proof. intros H. each_field f H; vm_compute; reflexivity. Qed.

Lemma map_fixed {A B} (P : A -> B -> Prop) (g : B -> B) l1 l2 :
  Forall2 P l1 l2 ->
  (forall a b, In (a, b) (combine l1 l2) -> P a b -> g b = b) ->
  map g l2 = l2.
Proof.
  induction 1 as [|a b l1 l2 Hab _ IH]; intros H; simpl; [reflexivity|].
  rewrite (H a b (or_introl eq_refl) Hab), IH; [reflexivity|].
  intros a' b' Hin. apply H. right. exact Hin.
Qed.

(** C9, as the code has it.  Re-encoding a decoded record emits exactly the
    field names of the class, in declaration order, all of them in the
    lower-case-with-underscores form, whatever spelling the input used.
    When the decoded list of rating entries is absent or empty, decoding
    the re-encoded mapping gives the same record back, so encoding it
    again gives the same mapping. *)
Theorem C9_reencoding d inst :
  Audiovisual.validate (VDict d) = Ok inst ->
  (exists attrs,
     Audiovisual.dump inst = VDict attrs
     /\ map fst attrs = map name Audiovisual.model_fields)
  /\ forallb is_snake (map name Audiovisual.model_fields) = true
  /\ (getattr inst "ratings" = Some VNone
      \/ getattr inst "ratings" = Some (VList []) ->
      Audiovisual.validate (Audiovisual.dump inst) = Ok inst).
Proof.
  intros Hv. destruct (validate_inv d inst Hv) as [attrs [-> Hfs]].
  pose proof (proj1 (validate_fields_ok _ _ _ _) Hfs) as HF.
  assert (Hnames : Forall2 (fun f kv => fst kv = name f)
                     Audiovisual.model_fields attrs).
  { eapply Forall2_impl_in; [exact HF|]. intros a b _ [H _]. exact H. }
  unfold Audiovisual.dump. rewrite model_dump_object.
  split; [|split; [vm_compute; reflexivity|]].
  - eexists. split; [reflexivity|].
    rewrite map_map. cbn [fst].
    rewrite <- (attr_names _ _ Hnames), <- map_map.
    rewrite (attr_names _ _ Hnames).
    vm_compute. reflexivity.
  - intros Hr. cbn [getattr] in Hr.
    assert (Hfix : Forall2 (fun f kv => fst kv = name f
                                        /\ fixed_by (schema f) (snd kv))
                     Audiovisual.model_fields attrs).
    { eapply Forall2_impl_in; [exact HF|].
      intros f kv Hin [Hk Hval]. split; [exact Hk|].
      apply (validated_value_fixed f d);
        [exact (in_combine_l _ _ _ _ Hin) | exact Hval |].
      intros Hn.
      pose proof (dict_get_at _ _ f kv Hnames names_are_distinct Hin) as Hget.
      rewrite Hn in Hget. rewrite Hget in Hr.
      destruct Hr as [Hr|Hr]; injection Hr as ->; [left | right]; reflexivity. }
    assert (Hdump : map (fun kv => (to_snake (fst kv),
                                    model_dump to_snake (snd kv))) attrs
                    = attrs).
    { eapply map_fixed; [exact Hfix|].
      intros f [k v] Hin [Hk [Hd _]]. cbn [fst snd] in *.
      rewrite Hd, Hk,
        (names_are_normalized f (in_combine_l _ _ _ _ Hin)).
      reflexivity. }
    rewrite Hdump. unfold Audiovisual.validate, model_validate.
    rewrite (revalidate Audiovisual.model_config Audiovisual.model_fields attrs
               names_are_distinct own_name_found).
    + reflexivity.
    + eapply Forall2_impl_in; [exact Hfix|].
      intros f kv _ [Hk [_ Hs]]. split; assumption.
Qed.

(** The provider's payload with an empty list of rating entries. *)
Lemma C9_reencoding_witness :
  (exists attrs,
     Audiovisual.dump decoded_without_ratings = VDict attrs
     /\ map fst attrs = map name Audiovisual.model_fields)
  /\ Audiovisual.validate (Audiovisual.dump decoded_without_ratings)
     = Ok decoded_without_ratings.
Proof.
  assert (Hv : Audiovisual.validate (VDict payload_without_ratings)
               = Ok decoded_without_ratings) by (vm_compute; reflexivity).
  destruct (C9_reencoding payload_without_ratings decoded_without_ratings Hv)
    as [Hkeys [_ Hround]].
  split; [exact Hkeys|]. apply Hround. right. reflexivity.
Defined.

(** C9 as stated fails: the provider's payload decodes, but its re-encoded
    form, whose rating entry is keyed "source" and "value", is rejected by
    the decoder, so there is nothing to encode again. *)
Lemma C9_rating_entries_break_round_trip :
  Audiovisual.validate (VDict provider_payload) = Ok decoded_payload
  /\ (exists attrs,
        Audiovisual.dump decoded_payload = VDict attrs
        /\ dict_get "ratings" attrs
           = Some (VList [VDict [("source", VStr "Internet Movie Database");
                                 ("value", VStr "8.9/10")]]))
  /\ Audiovisual.validate (Audiovisual.dump decoded_payload)
     = ValidationError
         [([Key "ratings"; Index 0%nat; Key "Source"], missing);
          ([Key "ratings"; Index 0%nat; Key "Value"], missing)].
Proof.
  split; [vm_compute; reflexivity|].
  split; [eexists; split; vm_compute; reflexivity|].
  vm_compute. reflexivity.
Qed.

(** * Further properties of the module *)

(** ** What a decode reads and what it reports *)

Lemma resolve_agree keys d1 d2 :
  (forall k, In k keys -> dict_get k d1 = dict_get k d2) ->
  resolve keys d1 = resolve keys d2.
Proof.
  induction keys as [|k keys IH]; intros H; simpl; [reflexivity|].
  rewrite (H k (or_introl eq_refl)), IH; [reflexivity|].
  intros k' Hk'. apply H. right. exact Hk'.
Qed.

Lemma validate_fields_agree cfg fs d1 d2 :
  (forall k, In k (keys_of cfg fs) -> dict_get k d1 = dict_get k d2) ->
  validate_fields cfg fs d1 = validate_fields cfg fs d2.
Proof.
  unfold keys_of. induction fs as [|f fs IH]; intros H; simpl; [reflexivity|].
  assert (Hf : validate_field cfg f d1 = validate_field cfg f d2).
  { unfold validate_field. rewrite (resolve_agree (lookup_keys cfg f) d1 d2).
    - reflexivity.
    - intros k Hk. apply H. simpl. apply in_or_app. left. exact Hk. }
  rewrite Hf, IH; [reflexivity|].
  intros k Hk. apply H. simpl. apply in_or_app. right. exact Hk.
Qed.

(** X1: decoding a provider payload depends on nothing but the values
    found under the keys that some field reads: two payloads that agree
    on those keys decode alike, whatever else they hold and in whatever
    order. *)
Theorem decode_reads_recognised_keys d1 d2 :
  (forall k, In k recognised_keys -> dict_get k d1 = dict_get k d2) ->
  Audiovisual.validate (VDict d1) = Audiovisual.validate (VDict d2).
Proof.
  intros H. unfold Audiovisual.validate, model_validate.
  rewrite (validate_fields_agree Audiovisual.model_config
             Audiovisual.model_fields d1 d2 H).
  reflexivity.
Qed.

(** The provider's payload reversed, with two keys no field reads. *)
Lemma decode_reads_recognised_keys_witness :
  Audiovisual.validate (VDict provider_payload)
  = Audiovisual.validate
      (VDict (("Dvd", VStr "25 Jun 2015") :: ("imdbId", VStr "tt0000000")
              :: rev provider_payload)).
Proof.
  apply (decode_reads_recognised_keys provider_payload
           (("Dvd", VStr "25 Jun 2015") :: ("imdbId", VStr "tt0000000")
            :: rev provider_payload)).
  intros k Hk. vm_compute in Hk.
  repeat (destruct Hk as [Hk|Hk]; [subst k; reflexivity|]).
  all: exfalso; exact Hk.
Defined.

Lemma is_ok_fields cfg fs d :
  is_ok (validate_fields cfg fs d)
  = forallb (fun f => is_ok (validate_field cfg f d)) fs.
Proof.
  induction fs as [|f fs IH]; simpl; [reflexivity|].
  rewrite <- IH.
  destruct (validate_field cfg f d); destruct (validate_fields cfg fs d);
    reflexivity.
Qed.

(** ** The decoded record *)

Lemma Forall2_compose {A B C} (P : A -> B -> Prop) (Q : A -> C -> Prop)
    (R : C -> B -> Prop) l lb lc :
  Forall2 P l lb -> Forall2 Q l lc ->
  (forall a b c, P a b -> Q a c -> R c b) ->
  Forall2 R lc lb.
Proof.
  intros HP. revert lc. induction HP as [|a b l lb Hab _ IH]; intros lc HQ H.
  - inversion HQ. constructor.
  - inversion HQ as [|a' c l' lc' Hac HQ']; subst. constructor.
    + exact (H a b c Hab Hac).
    + apply IH; assumption.
Qed.

Lemma required_field_ok cfg n sch d v :
  validate_field cfg (required n sch) d = Ok v ->
  exists k raw,
    resolve (lookup_keys cfg (required n sch)) d = Some (k, raw)
    /\ sch raw = Ok v.
Proof.
  unfold validate_field.
  destruct (resolve (lookup_keys cfg (required n sch)) d) as [[k raw]|];
    cbn [schema default required]; [|discriminate].
  destruct (sch raw) as [w|e] eqn:E; [|discriminate].
  intros H. injection H as <-. exists k, raw. split; [reflexivity | exact E].
Qed.

(** A rating entry decoded from plain data has two text attributes. *)
Lemma omdb_rating_typed x y :
  is_plain x = true -> OMDbRating.validate x = Ok y ->
  conforms AOMDbRating y = true.
Proof.
  intros Hp. destruct x; try discriminate.
  unfold OMDbRating.validate, model_validate.
  destruct (validate_fields OMDbRating.model_config OMDbRating.model_fields
              entries) as [attrs|e] eqn:Hfs; [|discriminate].
  intros H. injection H as <-.
  apply validate_fields_ok in Hfs. unfold OMDbRating.model_fields in Hfs.
  inversion Hfs as [|f1 kv1 fs1 as1 [Hk1 Hv1] Hrest]; subst.
  inversion Hrest as [|f2 kv2 fs2 as2 [Hk2 Hv2] Hnil]; subst.
  inversion Hnil; subst.
  destruct (required_field_ok _ _ _ _ _ Hv1) as [k1 [r1 [_ Hs1]]].
  destruct (required_field_ok _ _ _ _ _ Hv2) as [k2 [r2 [_ Hs2]]].
  destruct (str_schema_ok r1 _ Hs1) as [s1 E1].
  destruct (str_schema_ok r2 _ Hs2) as [s2 E2].
  destruct kv1 as [n1 v1], kv2 as [n2 v2]. cbn [fst snd name required] in *.
  subst. reflexivity.
Qed.

Lemma rating_items_typed l : forall i ys,
  forallb is_plain l = true ->
  validate_items OMDbRating.validate i l = Ok ys ->
  forallb (conforms AOMDbRating) ys = true.
Proof.
  induction l as [|x l IH]; intros i ys Hp; cbn [validate_items].
  - intros H. injection H as <-. reflexivity.
  - cbn [forallb] in Hp. apply andb_true_iff in Hp as [Hx Hl].
    destruct (OMDbRating.validate x) as [y|e] eqn:Ex;
      destruct (validate_items OMDbRating.validate (S i) l) as [zs|e'] eqn:El;
      try discriminate.
    intros H. injection H as <-. cbn [forallb].
    rewrite (omdb_rating_typed x y Hx Ex), (IH (S i) zs Hl El). reflexivity.
Qed.

(** What each kind of field validator returns conforms to the annotation
    of the field. *)
Lemma str_typed raw v :
  Audiovisual.hooked str_or_none raw = Ok v ->
  conforms (AOptional AStr) v = true.
Proof.
  intros H. destruct (hooked_cases _ _ _ H) as [Hn|[Hr _]].
  - injection Hn as <-. reflexivity.
  - destruct (nullable_ok _ _ _ Hr) as [->|Hl]; [reflexivity|].
    destruct (str_schema_ok raw v Hl) as [s ->]. reflexivity.
Qed.

Lemma str_or_int_typed raw v :
  Audiovisual.hooked str_or_int_or_none raw = Ok v ->
  conforms (AOptional (AUnion AStr AInt)) v = true.
Proof.
  intros H. destruct (hooked_cases _ _ _ H) as [Hn|[Hr _]].
  - injection Hn as <-. reflexivity.
  - destruct (nullable_ok _ _ _ Hr) as [->|Hl]; [reflexivity|].
    destruct (str_or_int_ok raw v Hl) as [[s [-> _]]|[z ->]]; reflexivity.
Qed.

Lemma int_typed raw v :
  Audiovisual.hooked int_or_none raw = Ok v ->
  conforms (AOptional AInt) v = true.
Proof.
  intros H. destruct (hooked_cases _ _ _ H) as [Hn|[Hr _]].
  - injection Hn as <-. reflexivity.
  - destruct (nullable_ok _ _ _ Hr) as [->|Hl]; [reflexivity|].
    destruct (lax_int_ok raw v Hl) as [z ->]. reflexivity.
Qed.

Lemma float_typed raw v :
  Audiovisual.hooked
    (function_before Audiovisual._change_commma_to_dot float_or_none) raw = Ok v ->
  conforms (AOptional AFloat) v = true.
Proof.
  intros H. destruct (hooked_cases _ _ _ H) as [Hn|[Hr _]].
  - injection Hn as <-. reflexivity.
  - destruct (comma_hook_ok raw v Hr) as [->|[x ->]]; reflexivity.
Qed.

Lemma bool_typed raw v :
  Audiovisual.hooked (validate_lax bool_schema) raw = Ok v ->
  conforms ABool v = true.
Proof.
  intros H. destruct (hooked_cases _ _ _ H) as [Hn|[Hr _]].
  - discriminate Hn.
  - destruct (lax_bool_ok raw v Hr) as [b ->]. reflexivity.
Qed.

Lemma ratings_typed raw v :
  is_plain raw = true ->
  Audiovisual.hooked (nullable (list_schema OMDbRating.validate)) raw = Ok v ->
  conforms (AOptional (AList AOMDbRating)) v = true.
Proof.
  rewrite hooked_unfold. intros Hp H.
  destruct raw; cbn [nullable list_schema] in H; ok_inv; try reflexivity.
  - destruct (re_search "N/A" s); ok_inv. reflexivity.
  - destruct (validate_items OMDbRating.validate 0 items) as [ys|e] eqn:E;
      [|discriminate H].
    injection H as <-. cbn [conforms is_plain] in *.
    exact (rating_items_typed items 0%nat ys Hp E).
Qed.

Lemma resolved_is_plain keys d k raw :
  forallb (fun kv => is_plain (snd kv)) d = true ->
  resolve keys d = Some (k, raw) -> is_plain raw = true.
Proof.
  intros Hp. induction keys as [|a keys IH]; simpl; [discriminate|].
  destruct (dict_get a d) as [v|] eqn:E; [|exact IH].
  intros H. injection H as _ <-.
  clear IH. induction d as [|[k' x] d IHd]; simpl in *; [discriminate|].
  apply andb_true_iff in Hp as [Hx Hd].
  destruct (String.eqb a k'); [injection E as <-; exact Hx | exact (IHd Hd E)].
Qed.

Lemma validated_conforms d f a :
  forallb (fun kv => is_plain (snd kv)) d = true ->
  (forall raw v, is_plain raw = true -> schema f raw = Ok v ->
                 conforms a v = true) ->
  (forall dv, default f = Some dv -> conforms a dv = true) ->
  forall v, validate_field Audiovisual.model_config f d = Ok v ->
            conforms a v = true.
Proof.
  intros Hp Hsch Hdef v. unfold validate_field.
  destruct (resolve (lookup_keys Audiovisual.model_config f) d)
    as [[k raw]|] eqn:Hres.
  - destruct (schema f raw) as [w|e] eqn:Hs; [|discriminate].
    intros H. injection H as <-.
    exact (Hsch raw w (resolved_is_plain _ d k raw Hp Hres) Hs).
  - destruct (default f) as [dv|]; [|discriminate].
    intros H. injection H as <-. apply Hdef. reflexivity.
Qed.

(** Field by field, a validated value conforms to the declaration. *)
Lemma fields_against_annotations d :
  forallb (fun kv => is_plain (snd kv)) d = true ->
  Forall2 (fun f decl =>
             name f = fst decl
             /\ forall v, validate_field Audiovisual.model_config f d = Ok v ->
                          conforms (snd decl) v = true)
    Audiovisual.model_fields Audiovisual_annotations.
Proof.
  intros Hp. unfold Audiovisual.model_fields, Audiovisual_annotations.
  repeat (constructor; [split; [reflexivity|]|]);
    try (apply (validated_conforms d _ _ Hp);
         [ intros raw v Hraw Hs;
           cbn [schema required optional with_alias] in Hs;
           first [ exact (str_typed raw v Hs)
                 | exact (str_or_int_typed raw v Hs)
                 | exact (int_typed raw v Hs)
                 | exact (float_typed raw v Hs)
                 | exact (bool_typed raw v Hs)
                 | exact (ratings_typed raw v Hraw Hs) ]
         | intros dv Hd; cbn [default required optional with_alias] in Hd;
           first [ discriminate Hd | injection Hd as <-; reflexivity ] ]).
  constructor.
Qed.

Lemma decoded_attrs_typed d attrs :
  forallb (fun kv => is_plain (snd kv)) d = true ->
  validate_fields Audiovisual.model_config Audiovisual.model_fields d = Ok attrs ->
  Forall2 attr_conforms Audiovisual_annotations attrs.
Proof.
  intros Hp Hfs. apply validate_fields_ok in Hfs.
  apply (Forall2_compose _ _ _ _ _ _ Hfs (fields_against_annotations d Hp)).
  intros f kv decl [Hk Hv] [Hn Hc]. split; [congruence | apply Hc, Hv].
Qed.

(** X3: the record decoded from a plain payload is typed as the class
    declares it: it holds the twenty-six attributes in the order of the
    class body, each one an instance of its annotation (text or absent,
    an integer or absent for [metascore], a float or absent for
    [imdb_rating], a list of rating entries or absent, a boolean for
    [response]). *)
Theorem decoded_record_is_typed d inst :
  is_plain (VDict d) = true ->
  Audiovisual.validate (VDict d) = Ok inst ->
  exists attrs,
    inst = VObject "Audiovisual" attrs
    /\ Forall2 attr_conforms Audiovisual_annotations attrs.
Proof.
  intros Hp Hv. destruct (validate_inv d inst Hv) as [attrs [-> Hfs]].
  exists attrs. split; [reflexivity|].
  exact (decoded_attrs_typed d attrs Hp Hfs).
Qed.

(** The provider's payload and its record. *)
Lemma decoded_record_is_typed_witness :
  exists attrs,
    decoded_payload = VObject "Audiovisual" attrs
    /\ Forall2 attr_conforms Audiovisual_annotations attrs.
Proof.
  apply (decoded_record_is_typed provider_payload decoded_payload).
  - reflexivity.
  - vm_compute. reflexivity.
Defined.

Lemma conforms_dump_plain a : forall v,
  conforms a v = true -> is_plain (model_dump to_snake v) = true.
Proof.
  induction a as [| | | | |item IH|a1 IH1 a2 IH2|a1 IH1]; intros v;
    cbn [conforms].
  - destruct v; try discriminate; reflexivity.
  - destruct v; try discriminate; reflexivity.
  - destruct v; try discriminate; reflexivity.
  - destruct v; try discriminate; reflexivity.
  - intros H.
    repeat match type of H with
           | context [match ?x with _ => _ end] =>
               destruct x; try discriminate H
           end.
    reflexivity.
  - destruct v as [| | | | |l| |]; try discriminate.
    cbn [model_dump is_plain]. induction l as [|x l IHl]; [reflexivity|].
    cbn [forallb map]. intros H. apply andb_true_iff in H as [Hx Hl].
    rewrite (IH x Hx), (IHl Hl). reflexivity.
  - intros H. apply orb_true_iff in H as [H|H]; [apply IH1 | apply IH2]; exact H.
  - destruct v; try reflexivity; apply IH1.
Qed.

(** X4: re-encoding the record decoded from a plain payload gives plain
    data again: a mapping, under the twenty-six field names, of text,
    numbers, booleans, nulls and lists of mappings, with no instance of a
    class left inside. *)
Theorem reencoded_record_is_plain d inst :
  is_plain (VDict d) = true ->
  Audiovisual.validate (VDict d) = Ok inst ->
  is_plain (Audiovisual.dump inst) = true.
Proof.
  intros Hp Hv. destruct (validate_inv d inst Hv) as [attrs [-> Hfs]].
  pose proof (decoded_attrs_typed d attrs Hp Hfs) as Ht.
  unfold Audiovisual.dump. rewrite model_dump_object. cbn [is_plain].
  clear Hfs Hv. induction Ht as [|decl kv decls attrs [_ Hc] _ IH];
    [reflexivity|].
  cbn [map forallb snd]. rewrite (conforms_dump_plain _ _ Hc), IH. reflexivity.
Qed.

(** The provider's payload, rating entry included. *)
Lemma reencoded_record_is_plain_witness :
  is_plain (Audiovisual.dump decoded_payload) = true.
Proof.
  apply (reencoded_record_is_plain provider_payload decoded_payload).
  - reflexivity.
  - vm_compute. reflexivity.
Defined.

(** X5: text is kept as it comes.  For every field but [ratings],
    [metascore], [imdb_rating] and [response], a raw string that does not
    hold the sentinel is decoded to itself: nothing is trimmed, and text
    that looks like a number is not turned into one (the year "2014" stays
    text). *)
Theorem text_is_kept_verbatim f s :
  In f Audiovisual.model_fields ->
  existsb (String.eqb (name f)) untexted = false ->
  re_search "N/A" s = false ->
  schema f (VStr s) = Ok (VStr s).
Proof.
  intros Hin Hn Hs.
  each_field f Hin; try discriminate Hn;
    cbn [schema required optional with_alias]; rewrite hooked_unfold, Hs;
    reflexivity.
Qed.

(** A year that is all digits, with blanks around it. *)
Lemma text_is_kept_verbatim_witness :
  schema (required "year" (Audiovisual.hooked str_or_int_or_none))
    (VStr " 2014 ") = Ok (VStr " 2014 ").
Proof.
  apply (text_is_kept_verbatim
           (required "year" (Audiovisual.hooked str_or_int_or_none)) " 2014 ").
  - unfold Audiovisual.model_fields. cbn [In]. tauto.
  - reflexivity.
  - reflexivity.
Defined.

(** ** The list of rating entries *)

Lemma entry_decodes e :
  OMDbRating.validate (raw_entry e) = Ok (decoded_entry e).
Proof. destruct e as [s v]. reflexivity. Qed.

Lemma entries_decode l : forall i,
  validate_items OMDbRating.validate i (map raw_entry l)
  = Ok (map decoded_entry l).
Proof.
  induction l as [|e l IH]; intros i; cbn [map validate_items]; [reflexivity|].
  rewrite entry_decodes, IH. reflexivity.
Qed.

(** X6: a list of rating entries, each a mapping with text under "Source"
    and "Value", decodes entry by entry: as many entries, in the same
    order, each with the same two texts.  The sentinel rule does not reach
    inside the list, so a "Value" of "N/A" stays the text "N/A"; an empty
    list stays an empty list. *)
Theorem rating_entries_decode_in_order l :
  schema ratings_field (VList (map raw_entry l))
  = Ok (VList (map decoded_entry l)).
Proof.
  cbn [schema ratings_field optional]. rewrite hooked_unfold.
  cbn [nullable list_schema]. rewrite entries_decode. reflexivity.
Qed.

Lemma items_fail l : forall i x,
  In x l -> is_ok (OMDbRating.validate x) = false ->
  is_ok (validate_items OMDbRating.validate i l) = false.
Proof.
  induction l as [|y l IH]; intros i x; cbn [In validate_items]; [tauto|].
  intros [->|Hin] Hx.
  - destruct (OMDbRating.validate x); [discriminate Hx|].
    destruct (validate_items OMDbRating.validate (S i) l); reflexivity.
  - pose proof (IH (S i) x Hin Hx) as Hl.
    destruct (validate_items OMDbRating.validate (S i) l); [discriminate Hl|].
    destruct (OMDbRating.validate y); reflexivity.
Qed.

Lemma failing_entry_fails_decode d k l x :
  resolve (lookup_keys Audiovisual.model_config ratings_field) d
    = Some (k, VList l) ->
  In x l ->
  is_ok (OMDbRating.validate x) = false ->
  is_ok (Audiovisual.validate (VDict d)) = false.
Proof.
  intros Hres Hin Hx.
  assert (Hf : is_ok (validate_field Audiovisual.model_config ratings_field d)
               = false).
  { unfold validate_field. rewrite Hres.
    cbn [schema ratings_field optional]. rewrite hooked_unfold.
    cbn [nullable list_schema].
    pose proof (items_fail l 0%nat x Hin Hx) as Hl.
    destruct (validate_items OMDbRating.validate 0 l);
      [discriminate Hl | reflexivity]. }
  unfold Audiovisual.validate, model_validate.
  assert (Hall : is_ok (validate_fields Audiovisual.model_config
                          Audiovisual.model_fields d) = false).
  { rewrite is_ok_fields. apply not_true_is_false. intros Hall.
    rewrite forallb_forall in Hall.
    rewrite (Hall ratings_field) in Hf; [discriminate Hf|].
    unfold Audiovisual.model_fields. cbn [In]. tauto. }
  destruct (validate_fields Audiovisual.model_config Audiovisual.model_fields d);
    [discriminate Hall | reflexivity].
Qed.

(** X7: one rating entry that does not validate (a key missing, a value
    that is not text) makes the decoding of the whole payload fail: the
    other entries and the other fields are not returned without it. *)
Theorem bad_rating_entry_rejects_payload d k l x :
  resolve (lookup_keys Audiovisual.model_config ratings_field) d
    = Some (k, VList l) ->
  In x l ->
  is_ok (OMDbRating.validate x) = false ->
  is_ok (Audiovisual.validate (VDict d)) = false.
Proof. exact (failing_entry_fails_decode d k l x). Qed.

(** The provider's payload with a second entry whose value is a number. *)
Lemma bad_rating_entry_rejects_payload_witness :
  is_ok (Audiovisual.validate
           (VDict (with_entry "Ratings"
                     (VList [raw_entry ("Internet Movie Database", "8.9/10");
                             VDict [("Source", VStr "Metacritic");
                                    ("Value", VInt 85)]])
                     provider_payload))) = false.
Proof.
  apply (bad_rating_entry_rejects_payload _ "Ratings"
           [raw_entry ("Internet Movie Database", "8.9/10");
            VDict [("Source", VStr "Metacritic"); ("Value", VInt 85)]]
           (VDict [("Source", VStr "Metacritic"); ("Value", VInt 85)])).
  - reflexivity.
  - cbn [In]. tauto.
  - reflexivity.
Defined.

(** ** The query *)

Lemma post_field_keys :
  map (lookup_keys AudiovisualPost.model_config) AudiovisualPost.model_fields
  = [["imdbId"]; ["title"]; ["year"]].
Proof. reflexivity. Qed.

(** A field that is read under one key: what the key holds goes through
    the validator, and a key that is not there gives the default. *)
Lemma single_key_field cfg f key d :
  lookup_keys cfg f = [key] ->
  validate_field cfg f d =
    match dict_get key d with
    | Some raw =>
        match schema f raw with
        | Ok v => Ok v
        | ValidationError e => ValidationError (at_loc (Key key) e)
        end
    | None =>
        match default f with
        | Some dv => Ok dv
        | None => ValidationError [([Key key], missing)]
        end
    end.
Proof.
  intros Hk. unfold validate_field. rewrite Hk. cbn [resolve hd].
  destruct (dict_get key d); reflexivity.
Qed.

Lemma post_validate d :
  AudiovisualPost.validate (VDict d) =
    match validate_field AudiovisualPost.model_config
            (optional "imdb_id" str_or_int_or_none VNone) d,
          validate_field AudiovisualPost.model_config post_title_field d,
          validate_field AudiovisualPost.model_config
            (optional "year" int_or_none VNone) d with
    | Ok i, Ok t, Ok y => Ok (post_record i t y)
    | ri, rt, ry =>
        ValidationError (errors_of ri ++ errors_of rt ++ errors_of ry)
    end.
Proof.
  unfold AudiovisualPost.validate, model_validate, AudiovisualPost.model_fields.
  cbn [validate_fields]. fold post_title_field.
  destruct (validate_field AudiovisualPost.model_config
              (optional "imdb_id" str_or_int_or_none VNone) d);
    destruct (validate_field AudiovisualPost.model_config post_title_field d);
    destruct (validate_field AudiovisualPost.model_config
                (optional "year" int_or_none VNone) d);
    cbn [errors_of app]; rewrite ?app_nil_r; reflexivity.
Qed.

(** X8: the query has no mandatory field.  A mapping that holds none of
    the keys "imdbId", "title" and "year" builds the query with its three
    fields absent, whatever else it holds; in particular an identifier
    given under "imdb_id" is not read. *)
Theorem query_without_its_keys_is_empty d :
  dict_get "imdbId" d = None ->
  dict_get "title" d = None ->
  dict_get "year" d = None ->
  AudiovisualPost.validate (VDict d) = Ok (post_record VNone VNone VNone).
Proof.
  intros Hi Ht Hy. rewrite post_validate.
  rewrite (single_key_field AudiovisualPost.model_config
             (optional "imdb_id" str_or_int_or_none VNone) "imdbId" d eq_refl), Hi.
  rewrite (single_key_field AudiovisualPost.model_config
             post_title_field "title" d eq_refl), Ht.
  rewrite (single_key_field AudiovisualPost.model_config
             (optional "year" int_or_none VNone) "year" d eq_refl), Hy.
  reflexivity.
Qed.

(** An identifier under the name of the field instead of its alias. *)
Lemma query_without_its_keys_is_empty_witness :
  AudiovisualPost.validate (VDict [("imdb_id", VStr "tt0944947")])
  = Ok (post_record VNone VNone VNone).
Proof.
  apply (query_without_its_keys_is_empty [("imdb_id", VStr "tt0944947")]);
    reflexivity.
Defined.

Lemma plus_is_not_whitespace s : no_whitespace (re_sub is_whitespace "+" s) = true.
Proof.
  unfold no_whitespace. induction s as [|c s IH]; [reflexivity|].
  cbn [re_sub]. destruct (is_whitespace c) eqn:E.
  - cbn [append str_forall]. rewrite IH. reflexivity.
  - cbn [str_forall]. rewrite E, IH. reflexivity.
Qed.

Lemma nothing_to_replace s :
  no_whitespace s = true -> re_sub is_whitespace "+" s = s.
Proof.
  unfold no_whitespace. induction s as [|c s IH]; [reflexivity|].
  cbn [str_forall re_sub]. intros H. apply andb_true_iff in H as [Hc Hs].
  apply negb_true_iff in Hc. rewrite Hc, (IH Hs). reflexivity.
Qed.

Lemma title_fixed raw v :
  schema post_title_field raw = Ok v ->
  (v = VNone \/ exists t, v = VStr t /\ no_whitespace t = true)
  /\ model_dump to_snake v = v
  /\ schema post_title_field v = Ok v.
Proof.
  cbn [schema post_title_field optional].
  unfold function_after, str_or_none, nullable, validate_lax,
    AudiovisualPost._replace_whitespaces_for_request.
  destruct raw; try discriminate.
  - intros H. injection H as <-. split; [left; reflexivity|]. split; reflexivity.
  - destruct (truthy (VStr s)) eqn:Et; intros H; injection H as <-.
    + split; [right; eexists; split; [reflexivity | apply plus_is_not_whitespace]|].
      split; [reflexivity|].
      destruct (truthy (VStr (re_sub is_whitespace "+" s))).
      * rewrite (nothing_to_replace _ (plus_is_not_whitespace s)). reflexivity.
      * reflexivity.
    + rewrite Et. split; [|split; reflexivity].
      right. exists s. split; [reflexivity|].
      destruct s; [reflexivity | discriminate Et].
Qed.

(** X9: a title that the query accepts holds no whitespace character any
    more, and validating it again returns it unchanged: the rewriting is
    done once and for all. *)
Theorem query_title_has_no_whitespace raw v :
  schema post_title_field raw = Ok v ->
  (v = VNone \/ exists t, v = VStr t /\ no_whitespace t = true)
  /\ schema post_title_field v = Ok v.
Proof.
  intros H. destruct (title_fixed raw v H) as [H1 [_ H2]]. split; assumption.
Qed.

(** A title with a tab between two spaces. *)
Lemma query_title_has_no_whitespace_witness :
  (VStr "Breaking+++Bad" = VNone
   \/ exists t, VStr "Breaking+++Bad" = VStr t /\ no_whitespace t = true)
  /\ schema post_title_field (VStr "Breaking+++Bad") = Ok (VStr "Breaking+++Bad").
Proof.
  apply (query_title_has_no_whitespace (VStr tabbed_title)).
  vm_compute. reflexivity.
Defined.

Lemma optional_field_ok cfg n sch dv d v :
  validate_field cfg (optional n sch dv) d = Ok v ->
  v = dv \/ exists raw, sch raw = Ok v.
Proof.
  unfold validate_field.
  destruct (resolve (lookup_keys cfg (optional n sch dv)) d) as [[k raw]|];
    cbn [schema default optional].
  - destruct (sch raw) as [w|e] eqn:E; [|discriminate].
    intros H. injection H as <-. right. exists raw. exact E.
  - intros H. injection H as <-. left. reflexivity.
Qed.

Lemma int_or_none_fixed raw v :
  int_or_none raw = Ok v -> model_dump to_snake v = v /\ int_or_none v = Ok v.
Proof.
  intros H. destruct (nullable_ok _ _ _ H) as [->|Hl]; [split; reflexivity|].
  destruct (lax_int_ok raw v Hl) as [z ->]. split; reflexivity.
Qed.

Lemma str_or_int_plain raw v :
  str_or_int_or_none raw = Ok v -> model_dump to_snake v = v.
Proof.
  intros H. destruct (nullable_ok _ _ _ H) as [->|Hl]; [reflexivity|].
  destruct (str_or_int_ok raw v Hl) as [[s [-> _]]|[z ->]]; reflexivity.
Qed.

(** X10: encoding a query and decoding it again loses the identifier.
    The query is emitted under "imdb_id", "title" and "year", while the
    identifier is only read under "imdbId": the title and the year come
    back as they were, the identifier comes back absent. *)
Theorem reencoded_query_loses_identifier d inst :
  AudiovisualPost.validate (VDict d) = Ok inst ->
  exists i t y,
    inst = post_record i t y
    /\ model_dump to_snake inst
       = VDict [("imdb_id", i); ("title", t); ("year", y)]
    /\ AudiovisualPost.validate (model_dump to_snake inst)
       = Ok (post_record VNone t y).
Proof.
  rewrite post_validate.
  destruct (validate_field AudiovisualPost.model_config
              (optional "imdb_id" str_or_int_or_none VNone) d) as [i|ei] eqn:Hi;
    destruct (validate_field AudiovisualPost.model_config post_title_field d)
      as [t|et] eqn:Ht;
    destruct (validate_field AudiovisualPost.model_config
                (optional "year" int_or_none VNone) d) as [y|ey] eqn:Hy;
    try discriminate.
  intros H. injection H as <-. exists i, t, y. split; [reflexivity|].
  assert (Hi' : model_dump to_snake i = i).
  { destruct (optional_field_ok _ _ _ _ _ _ Hi) as [->|[raw Hr]];
      [reflexivity | exact (str_or_int_plain raw i Hr)]. }
  assert (Ht' : model_dump to_snake t = t /\ schema post_title_field t = Ok t).
  { destruct (optional_field_ok _ _ _ _ _ _ Ht) as [->|[raw Hr]];
      [split; reflexivity|].
    destruct (title_fixed raw t Hr) as [_ [H1 H2]]. split; assumption. }
  assert (Hy' : model_dump to_snake y = y /\ int_or_none y = Ok y).
  { destruct (optional_field_ok _ _ _ _ _ _ Hy) as [->|[raw Hr]];
      [split; reflexivity | exact (int_or_none_fixed raw y Hr)]. }
  destruct Ht' as [Ht1 Ht2], Hy' as [Hy1 Hy2].
  assert (Hdump : model_dump to_snake (post_record i t y)
                  = VDict [("imdb_id", i); ("title", t); ("year", y)]).
  { unfold post_record. rewrite model_dump_object. cbn [map fst snd].
    rewrite Hi', Ht1, Hy1. reflexivity. }
  split; [exact Hdump|].
  rewrite Hdump, post_validate.
  rewrite (single_key_field AudiovisualPost.model_config
             (optional "imdb_id" str_or_int_or_none VNone) "imdbId" _ eq_refl).
  rewrite (single_key_field AudiovisualPost.model_config
             post_title_field "title" _ eq_refl).
  rewrite (single_key_field AudiovisualPost.model_config
             (optional "year" int_or_none VNone) "year" _ eq_refl).
  cbn [dict_get].
  change (String.eqb "imdbId" "imdb_id") with false.
  change (String.eqb "imdbId" "title") with false.
  change (String.eqb "imdbId" "year") with false.
  change (String.eqb "title" "imdb_id") with false.
  change (String.eqb "title" "title") with true.
  change (String.eqb "year" "imdb_id") with false.
  change (String.eqb "year" "title") with false.
  change (String.eqb "year" "year") with true.
  cbv iota. rewrite Ht2. cbn [schema optional default]. rewrite Hy2.
  reflexivity.
Qed.

(** A query by identifier and title. *)
Lemma reencoded_query_loses_identifier_witness :
  exists i t y,
    post_record (VStr "tt0944947") (VStr "Breaking+Bad") VNone = post_record i t y
    /\ model_dump to_snake
         (post_record (VStr "tt0944947") (VStr "Breaking+Bad") VNone)
       = VDict [("imdb_id", i); ("title", t); ("year", y)]
    /\ AudiovisualPost.validate
         (model_dump to_snake
            (post_record (VStr "tt0944947") (VStr "Breaking+Bad") VNone))
       = Ok (post_record VNone t y).
Proof.
  apply (reencoded_query_loses_identifier
           [("imdbId", VStr "tt0944947"); ("title", VStr "Breaking Bad")]).
  vm_compute. reflexivity.
Defined.

(** X11: a query given with an identifier that is text or an integer, a
    text title and an integer year is built with the identifier and the
    year as they are given (text is not turned into a number, nor a number
    into text) and with the title rewritten. *)
Theorem query_keeps_identifier_and_year d i t z :
  dict_get "imdbId" d = Some i ->
  conforms (AUnion AStr AInt) i = true ->
  dict_get "title" d = Some (VStr t) ->
  dict_get "year" d = Some (VInt z) ->
  AudiovisualPost.validate (VDict d)
  = Ok (post_record i (VStr (re_sub is_whitespace "+" t)) (VInt z)).
Proof.
  intros Hi Hc Ht Hy. rewrite post_validate.
  rewrite (single_key_field AudiovisualPost.model_config
             (optional "imdb_id" str_or_int_or_none VNone) "imdbId" d eq_refl), Hi.
  rewrite (single_key_field AudiovisualPost.model_config
             post_title_field "title" d eq_refl), Ht.
  rewrite (single_key_field AudiovisualPost.model_config
             (optional "year" int_or_none VNone) "year" d eq_refl), Hy.
  assert (Hid : schema (optional "imdb_id" str_or_int_or_none VNone) i = Ok i).
  { destruct i; try discriminate Hc; reflexivity. }
  rewrite Hid.
  assert (Htitle : schema post_title_field (VStr t)
                   = Ok (VStr (re_sub is_whitespace "+" t))).
  { destruct t; reflexivity. }
  rewrite Htitle. reflexivity.
Qed.

(** An identifier that is all digits, given as text. *)
Lemma query_keeps_identifier_and_year_witness :
  AudiovisualPost.validate
    (VDict [("imdbId", VStr "0944947"); ("title", VStr "Breaking Bad");
            ("year", VInt 2008)])
  = Ok (post_record (VStr "0944947") (VStr "Breaking+Bad") (VInt 2008)).
Proof.
  apply (query_keeps_identifier_and_year
           [("imdbId", VStr "0944947"); ("title", VStr "Breaking Bad");
            ("year", VInt 2008)] (VStr "0944947") "Breaking Bad" 2008);
    reflexivity.
Defined.

(** ** The public view *)

Lemma view_reads_source uuid_schema src d :
  source_attrs "AudiovisualView" src = Some d ->
  AudiovisualView.validate uuid_schema src
  = AudiovisualView.validate uuid_schema (VDict d).
Proof.
  destruct src; try discriminate.
  - intros H. injection H as <-. reflexivity.
  - cbn [source_attrs]. unfold AudiovisualView.validate, model_validate.
    destruct (isinstance (VObject cls attrs) "AudiovisualView"); [discriminate|].
    intros H. injection H as <-. reflexivity.
Qed.

Lemma view_validate uuid_schema d :
  is_ok (AudiovisualView.validate uuid_schema (VDict d))
  = forallb (fun f => is_ok (validate_field AudiovisualView.model_config f d))
      (AudiovisualView.model_fields uuid_schema).
Proof.
  rewrite <- is_ok_fields. unfold AudiovisualView.validate, model_validate.
  destruct (validate_fields AudiovisualView.model_config
              (AudiovisualView.model_fields uuid_schema) d); reflexivity.
Qed.

Lemma view_field_fails uuid_schema d f :
  In f (AudiovisualView.model_fields uuid_schema) ->
  is_ok (validate_field AudiovisualView.model_config f d) = false ->
  is_ok (AudiovisualView.validate uuid_schema (VDict d)) = false.
Proof.
  intros Hin Hf. rewrite view_validate. apply not_true_is_false. intros Hall.
  rewrite forallb_forall in Hall. rewrite (Hall f Hin) in Hf. discriminate Hf.
Qed.

(** X12: the rating of the view is unwrapped for [Rating] only.  An
    object that is not an instance of [Rating] (its class is not [Rating]
    and does not inherit from it) is handed to the [float | None]
    validator as it is; when Python cannot convert it to a float either
    (its class defines neither [__float__] nor [__index__]) the validator
    refuses it and the view is not built.  The same holds for a [Rating]
    whose [rating] attribute is such an object. *)
Theorem view_refuses_other_aggregates uuid_schema src d cls attrs :
  source_attrs "AudiovisualView" src = Some d ->
  dict_get "rating" d = Some (VObject cls attrs) ->
  isinstance (VObject cls attrs) "Rating" = false ->
  as_double (VObject cls attrs) = None ->
  schema AudiovisualView.rating (VObject cls attrs) = fail float_type
  /\ schema AudiovisualView.rating (Rating (VObject cls attrs)) = fail float_type
  /\ is_ok (AudiovisualView.validate uuid_schema src) = false.
Proof.
  intros Hsrc Hd Hc Hf.
  assert (H0 : float_or_none (VObject cls attrs) = fail float_type).
  { unfold float_or_none, nullable, validate_lax. rewrite Hf. reflexivity. }
  assert (H1 : schema AudiovisualView.rating (VObject cls attrs) = fail float_type).
  { cbn [schema AudiovisualView.rating required].
    unfold function_before, AudiovisualView._return_rating.
    rewrite Hc. exact H0. }
  split; [exact H1|]. split.
  - cbn [schema AudiovisualView.rating required].
    unfold function_before, AudiovisualView._return_rating.
    change (isinstance (Rating (VObject cls attrs)) "Rating") with true.
    change (getattr (Rating (VObject cls attrs)) "rating")
      with (Some (VObject cls attrs)).
    exact H0.
  - rewrite (view_reads_source uuid_schema src d Hsrc).
    apply (view_field_fails uuid_schema d AudiovisualView.rating).
    + unfold AudiovisualView.model_fields. cbn [In]. tauto.
    + rewrite (single_key_field AudiovisualView.model_config
                 AudiovisualView.rating "rating" d eq_refl), Hd, H1.
      reflexivity.
Qed.

(** A stored record whose rating is an object of another class. *)
Lemma view_refuses_other_aggregates_witness :
  schema AudiovisualView.rating (VObject "Score" [("rating", VFloat 8.3)])
    = fail float_type
  /\ schema AudiovisualView.rating
       (Rating (VObject "Score" [("rating", VFloat 8.3)])) = fail float_type
  /\ is_ok (AudiovisualView.validate (fun v => Ok v)
              (stored_record (VObject "Score" [("rating", VFloat 8.3)])
                 (VStr "series"))) = false.
Proof.
  eapply (view_refuses_other_aggregates (fun v => Ok v)
            (stored_record (VObject "Score" [("rating", VFloat 8.3)])
               (VStr "series")) _ "Score" [("rating", VFloat 8.3)]);
    reflexivity.
Defined.

(** X13: the view cannot be built without a content type.  [type] is
    declared [str], without [None] and without a default: a source that
    has no [type], or whose [type] is [None], is refused, whatever its
    other attributes are. *)
Theorem view_needs_a_type uuid_schema src d :
  source_attrs "AudiovisualView" src = Some d ->
  dict_get "type" d = None \/ dict_get "type" d = Some VNone ->
  is_ok (AudiovisualView.validate uuid_schema src) = false.
Proof.
  intros Hsrc Hd. rewrite (view_reads_source uuid_schema src d Hsrc).
  apply (view_field_fails uuid_schema d (required "type" (validate_lax str_schema))).
  - unfold AudiovisualView.model_fields. cbn [In]. tauto.
  - rewrite (single_key_field AudiovisualView.model_config
               (required "type" (validate_lax str_schema)) "type" d eq_refl).
    destruct Hd as [->| ->]; reflexivity.
Qed.

(** A stored record that is complete but for its type. *)
Lemma view_needs_a_type_witness :
  is_ok (AudiovisualView.validate (fun v => Ok v)
           (stored_record (VFloat 8.9) VNone)) = false.
Proof.
  eapply (view_needs_a_type (fun v => Ok v) (stored_record (VFloat 8.9) VNone)).
  - reflexivity.
  - right. reflexivity.
Defined.

Lemma float_or_none_typed raw v :
  float_or_none raw = Ok v -> conforms (AOptional AFloat) v = true.
Proof.
  intros H. destruct (nullable_ok _ _ _ H) as [->|Hl]; [reflexivity|].
  destruct (lax_float_ok raw v Hl) as [x ->]. reflexivity.
Qed.

(** X14: in a view that was built, the rating is a float or absent and
    the type is text: an aggregate never reaches the consumer, whatever the
    source held. *)
Theorem view_rating_is_a_number uuid_schema src d inst :
  source_attrs "AudiovisualView" src = Some d ->
  AudiovisualView.validate uuid_schema src = Ok inst ->
  exists r t,
    getattr inst "rating" = Some r
    /\ conforms (AOptional AFloat) r = true
    /\ getattr inst "type" = Some (VStr t).
Proof.
  intros Hsrc. rewrite (view_reads_source uuid_schema src d Hsrc).
  unfold AudiovisualView.validate, model_validate.
  destruct (validate_fields AudiovisualView.model_config
              (AudiovisualView.model_fields uuid_schema) d) as [attrs|e] eqn:Hfs;
    [|discriminate].
  intros H. injection H as <-.
  destruct (validated_attr _ _ _ _ "rating" AudiovisualView.rating Hfs eq_refl)
    as [r [Hr Hgr]].
  destruct (validated_attr _ _ _ _ "type"
              (required "type" (validate_lax str_schema)) Hfs eq_refl)
    as [t [Ht Hgt]].
  destruct (required_field_ok _ _ _ _ _ Hr) as [k1 [raw1 [_ Hs1]]].
  destruct (required_field_ok _ _ _ _ _ Ht) as [k2 [raw2 [_ Hs2]]].
  destruct (str_schema_ok raw2 t Hs2) as [s ->].
  exists r, s. cbn [getattr]. split; [exact Hgr|]. split; [|exact Hgt].
  unfold function_before, AudiovisualView._return_rating in Hs1.
  destruct (isinstance raw1 "Rating").
  - destruct (getattr raw1 "rating") as [x|]; [|discriminate Hs1].
    exact (float_or_none_typed x r Hs1).
  - exact (float_or_none_typed raw1 r Hs1).
Qed.

(** A stored record whose rating is a [Rating] aggregate. *)
Lemma view_rating_is_a_number_witness :
  exists inst r t,
    AudiovisualView.validate (fun v => Ok v)
      (stored_record (Rating (VFloat 8.3)) (VStr "series")) = Ok inst
    /\ getattr inst "rating" = Some r
    /\ conforms (AOptional AFloat) r = true
    /\ getattr inst "type" = Some (VStr t).
Proof.
  assert (Hv : AudiovisualView.validate (fun v => Ok v)
                 (stored_record (Rating (VFloat 8.3)) (VStr "series"))
               = Ok (VObject "AudiovisualView"
                       [("id", VStr "64e259a8-8512-415f-8f52-8b3d9103f6c6");
                        ("title", VStr "Fargo"); ("year", VStr "2014-2024");
                        ("runtime", VStr "53 min"); ("genre", VStr "Crime");
                        ("director", VNone); ("actors", VNone); ("plot", VNone);
                        ("rating", VFloat 8.3); ("type", VStr "series")]))
    by (vm_compute; reflexivity).
  destruct (view_rating_is_a_number (fun v => Ok v)
              (stored_record (Rating (VFloat 8.3)) (VStr "series"))
              (stored_attrs (Rating (VFloat 8.3)) (VStr "series")) _ eq_refl Hv)
    as [r [t H]].
  eexists; exists r, t. split; [exact Hv | exact H].
Defined.

(** ** The query by identifier and the two messages *)

Lemma single_text_model cls key d :
  model_validate cls plain_config [required key (validate_lax str_schema)]
    (VDict d)
  = single_text cls key d.
Proof.
  unfold model_validate, single_text. cbn [validate_fields].
  rewrite (single_key_field plain_config
             (required key (validate_lax str_schema)) key d eq_refl).
  destruct (dict_get key d) as [v|]; [|reflexivity].
  destruct v; reflexivity.
Qed.

(** X15: [AudiovisualQuery], [AudiovisualRemovedMessage] and
    [AudiovisualErrorMessage] accept a mapping exactly when it holds text
    under "id" (respectively "message"), and keep that text unchanged.  A
    value of another type, a number or [None] included, is refused and not
    converted; a mapping without the key is refused as missing. *)
Theorem text_only_models d :
  AudiovisualQuery.validate (VDict d) = single_text "AudiovisualQuery" "id" d
  /\ AudiovisualRemovedMessage.validate (VDict d)
     = single_text "AudiovisualRemovedMessage" "message" d
  /\ AudiovisualErrorMessage.validate (VDict d)
     = single_text "AudiovisualErrorMessage" "message" d.
Proof.
  split; [|split]; apply single_text_model.
Qed.

(** ** Input keys and output keys *)

(** X16: in the three classes that declare an alias generator, every key
    under which a field is read is a spelling of the key under which the
    field is emitted: [to_snake] of the input key is the name of the
    field, the two irregular keys "imdbID" and "DVD" included. *)
Theorem input_keys_normalise_to_output_keys c f k :
  In c aliased_classes ->
  In f (snd c) ->
  In k (lookup_keys (fst c) f) ->
  to_snake k = name f.
Proof.
  intros Hc Hf Hk. unfold aliased_classes in Hc. cbn [In] in Hc.
  destruct Hc as [Hc|[Hc|[Hc|Hc]]]; [subst c ..|contradiction Hc];
    cbn [fst snd] in *.
  - unfold AudiovisualPost.model_fields in Hf. cbn [In] in Hf.
    repeat (destruct Hf as [Hf|Hf];
            [subst f; vm_compute in Hk;
             repeat (destruct Hk as [Hk|Hk]; [subst k; vm_compute; reflexivity|]);
             contradiction Hk|]).
    contradiction Hf.
  - each_field f Hf; vm_compute in Hk;
      repeat (destruct Hk as [Hk|Hk]; [subst k; vm_compute; reflexivity|]);
      contradiction Hk.
  - unfold OMDbRating.model_fields in Hf. cbn [In] in Hf.
    repeat (destruct Hf as [Hf|Hf];
            [subst f; vm_compute in Hk;
             repeat (destruct Hk as [Hk|Hk]; [subst k; vm_compute; reflexivity|]);
             contradiction Hk|]).
    contradiction Hf.
Qed.

(** The identifier of [Audiovisual] under its irregular key. *)
Lemma input_keys_normalise_to_output_keys_witness :
  to_snake "imdbID" = name imdb_id_field.
Proof.
  apply (input_keys_normalise_to_output_keys
           (Audiovisual.model_config, Audiovisual.model_fields)
           imdb_id_field "imdbID").
  - unfold aliased_classes. cbn [In]. tauto.
  - unfold Audiovisual.model_fields. cbn [In snd]. tauto.
  - left. reflexivity.
Defined.

(** ** The success flag *)

Lemma sentinel_has_slash s :
  re_search "N/A" s = true -> re_search "/" (str_lower s) = true.
Proof.
  induction s as [|c s IH]; [discriminate|].
  cbn [re_search]. intros H. apply orb_true_iff in H as [H|H].
  - destruct s as [|c2 s]; [cbn in H; rewrite andb_false_r in H; discriminate H|].
    cbn [starts_with] in H.
    apply andb_true_iff in H as [_ H]. apply andb_true_iff in H as [H _].
    apply Ascii.eqb_eq in H. subst c2.
    cbn [str_lower str_map re_search]. apply orb_true_iff. right.
    apply orb_true_iff. left. reflexivity.
  - change (str_lower (String c s)) with (String (lower c) (str_lower s)).
    cbn [re_search]. rewrite (IH H). apply orb_true_r.
Qed.

(** X17: the success flag is read in any letter case.  A text that is
    "true" or "false" up to letter case ("True", as the provider sends it)
    decodes to the corresponding boolean. *)
Theorem success_flag_in_any_case (s : string) (b : bool) :
  str_lower s = (if b then "true" else "false") ->
  schema response_field (VStr s) = Ok (VBool b).
Proof.
  intros Hs. cbn [schema response_field required]. rewrite hooked_unfold.
  assert (Hn : re_search "N/A" s = false).
  { destruct (re_search "N/A" s) eqn:E; [|reflexivity].
    apply sentinel_has_slash in E. rewrite Hs in E.
    destruct b; discriminate E. }
  rewrite Hn. cbn [validate_lax]. unfold str_as_bool. rewrite Hs.
  destruct b; reflexivity.
Qed.

(** The flag as the provider spells it. *)
Lemma success_flag_in_any_case_witness :
  schema response_field (VStr "True") = Ok (VBool true).
Proof.
  apply (success_flag_in_any_case "True" true). reflexivity.
Defined.

(** ** Rating entries and re-encoding *)

(** X18: a rating entry that was decoded and encoded again is never
    accepted back.  It is emitted under "source" and "value", and the
    class reads "Source" and "Value" only: both fields are reported
    missing, whatever the two texts are. *)
Theorem reencoded_entry_is_refused e :
  OMDbRating.validate (raw_entry e) = Ok (decoded_entry e)
  /\ model_dump to_snake (decoded_entry e)
     = VDict [("source", VStr (fst e)); ("value", VStr (snd e))]
  /\ OMDbRating.validate (model_dump to_snake (decoded_entry e))
     = ValidationError [([Key "Source"], missing); ([Key "Value"], missing)].
Proof.
  destruct e as [s v]. split; [|split]; reflexivity.
Qed.

Lemma dumped_entry_is_refused x :
  conforms AOMDbRating x = true ->
  is_ok (OMDbRating.validate (model_dump to_snake x)) = false.
Proof.
  cbn [conforms]. intros H.
  repeat match type of H with
         | context [match ?y with _ => _ end] =>
             destruct y; try discriminate H
         end.
  apply andb_true_iff in H as [H H2]. apply andb_true_iff in H as [_ H1].
  apply String.eqb_eq in H1. apply String.eqb_eq in H2. subst.
  reflexivity.
Qed.

Lemma dict_get_dumped k (attrs : list (string * pyval)) :
  (forall kv, In kv attrs -> to_snake (fst kv) = fst kv) ->
  dict_get k (map (fun kv => (to_snake (fst kv), model_dump to_snake (snd kv)))
                attrs)
  = option_map (model_dump to_snake) (dict_get k attrs).
Proof.
  induction attrs as [|[k' v] attrs IH]; intros H; [reflexivity|].
  cbn [map dict_get fst snd].
  pose proof (H (k', v) (or_introl eq_refl)) as Hk. cbn [fst] in Hk.
  rewrite Hk.
  destruct (String.eqb k k'); [reflexivity|].
  apply IH. intros kv Hkv. apply H. right. exact Hkv.
Qed.

Lemma decoded_keys_normalized d attrs :
  validate_fields Audiovisual.model_config Audiovisual.model_fields d = Ok attrs ->
  forall kv, In kv attrs -> to_snake (fst kv) = fst kv.
Proof.
  intros Hfs. apply validate_fields_ok in Hfs.
  assert (Hnames : map fst attrs = map name Audiovisual.model_fields).
  { apply attr_names. eapply Forall2_impl_in; [exact Hfs|].
    intros a b _ [H _]. exact H. }
  intros kv Hkv. apply (in_map fst) in Hkv. rewrite Hnames in Hkv.
  apply in_map_iff in Hkv as [f [Hf Hin]]. rewrite <- Hf.
  apply names_are_normalized, Hin.
Qed.

(** X19: the record of a payload with at least one rating entry cannot be
    decoded back from its re-encoded form, whatever the payload: with the
    round trip of the records without entries, re-encoding is stable
    exactly when the decoded list of entries is absent or empty. *)
Theorem rating_entries_stop_the_round_trip d inst x l :
  is_plain (VDict d) = true ->
  Audiovisual.validate (VDict d) = Ok inst ->
  getattr inst "ratings" = Some (VList (x :: l)) ->
  is_ok (Audiovisual.validate (Audiovisual.dump inst)) = false.
Proof.
  intros Hp Hv Hr. destruct (validate_inv d inst Hv) as [attrs [-> Hfs]].
  cbn [getattr] in Hr.
  pose proof (decoded_attrs_typed d attrs Hp Hfs) as Ht.
  assert (Hx : conforms AOMDbRating x = true).
  { assert (Hc : forall decls (kvs : list (string * pyval)),
               Forall2 attr_conforms decls kvs ->
               forall a, find (fun decl => String.eqb (fst decl) "ratings") decls
                         = Some ("ratings", a) ->
               forall v, dict_get "ratings" kvs = Some v -> conforms a v = true).
    { induction 1 as [|decl kv decls kvs [Hk Hc] _ IH]; [discriminate|].
      intros a. cbn [find]. destruct kv as [k v]. cbn [fst snd] in *. subst k.
      cbn [dict_get]. rewrite (String.eqb_sym "ratings" (fst decl)).
      destruct (String.eqb (fst decl) "ratings").
      - intros Ha w Hw. injection Ha as Ha. injection Hw as <-.
        rewrite Ha in Hc. exact Hc.
      - apply IH. }
    pose proof (Hc _ _ Ht (AOptional (AList AOMDbRating)) eq_refl _ Hr) as Hl.
    cbn [conforms forallb] in Hl. apply andb_true_iff in Hl as [Hl _]. exact Hl. }
  unfold Audiovisual.dump. rewrite model_dump_object.
  apply (failing_entry_fails_decode _ "ratings"
           (map (model_dump to_snake) (x :: l)) (model_dump to_snake x)).
  - change (lookup_keys Audiovisual.model_config ratings_field)
      with ["ratings"; "Ratings"; "ratings"].
    cbn [resolve].
    rewrite (dict_get_dumped "ratings" attrs (decoded_keys_normalized d attrs Hfs)),
      Hr.
    reflexivity.
  - left. reflexivity.
  - exact (dumped_entry_is_refused x Hx).
Qed.

(** The provider's payload, which holds one entry. *)
Lemma rating_entries_stop_the_round_trip_witness :
  is_ok (Audiovisual.validate (Audiovisual.dump decoded_payload)) = false.
Proof.
  apply (rating_entries_stop_the_round_trip provider_payload decoded_payload
           (decoded_entry ("Internet Movie Database", "8.9/10")) []).
  - reflexivity.
  - vm_compute. reflexivity.
  - reflexivity.
Defined.
